(** * Session lifecycle of the CyberSecurityBot console

    A shallow embedding of [CyberSecurityBot] (validators, traffic generation,
    monitoring, configuration, status and the command shell) from
    [Accurate-Cyber-Defense-Network-Traffic-Generator-Bot.py], and the
    properties of its session engine.

    Conventions of the embedding:
    - Python [int] is [Z]; [str] is [string], read as a sequence of ASCII
      code points (bytes above 127 are neither digits nor white space);
    - a Python exception is a value of [Exn]; a call that may raise returns
      a [Res];
    - the object [self] is the record [Bot]; the process (object, worker
      threads, file system, observable events) is the record [World];
    - wall-clock readings and sleep lengths are rationals ([Q]); the
      rounding of Python floats is not modelled;
    - whatever the outside world decides (clock, network, ping, Telegram,
      [random.choice]) is supplied to each step in an [Env] record. *)

From Stdlib Require Import ZArith List String Ascii Bool Lia QArith.
Import ListNotations.

Local Open Scope string_scope.
Local Open Scope Z_scope.

(** ** Exceptions and results *)

Inductive Exn : Type :=
| ValueError (msg : string)
| OSError (msg : string)
| IndexError (msg : string)
| ZeroDivisionError (msg : string)
| OverflowError (msg : string).

Definition exn_str (e : Exn) : string :=
  match e with
  | ValueError m | OSError m | IndexError m | ZeroDivisionError m
  | OverflowError m => m
  end.

Inductive Res (A : Type) : Type :=
| Ok (a : A)
| Raise (e : Exn).
Arguments Ok {A} a.
Arguments Raise {A} e.

(** ** Characters and numerals *)

Module Chars.

Definition code (c : ascii) : Z := Z.of_N (N_of_ascii c).

Definition chr (n : Z) : ascii := ascii_of_N (Z.to_N n).

(** C [isdigit] in the "C" locale. *)
Definition isdigit (c : ascii) : bool := (48 <=? code c) && (code c <=? 57).

(** C [isspace] restricted to ASCII: space, \t, \n, \v, \f, \r. *)
Definition isspace (c : ascii) : bool :=
  (code c =? 32) || ((9 <=? code c) && (code c <=? 13)).

(** White space as [int()] strips it from a [str]: the C set and the
    separators 0x1c..0x1f. *)
Definition py_isspace (c : ascii) : bool :=
  isspace c || ((28 <=? code c) && (code c <=? 31)).

(** Value of a digit in any base up to 16. *)
Definition xdigit_val (c : ascii) : option Z :=
  if isdigit c then Some (code c - 48)
  else if (97 <=? code c) && (code c <=? 102) then Some (code c - 87)
  else if (65 <=? code c) && (code c <=? 70) then Some (code c - 55)
  else None.

Definition isxdigit (c : ascii) : bool :=
  match xdigit_val c with Some _ => true | None => false end.

Definition NUL : ascii := chr 0.

Fixpoint has_nul (s : string) : bool :=
  match s with
  | EmptyString => false
  | String c tl => (code c =? 0) || has_nul tl
  end.

End Chars.

(** ** [str(int)] *)

Module PyStr.
Import Chars.

(** Decimal digits of a non-negative integer, most significant first;
    [fuel] bounds the number of digits. *)
Fixpoint digits (fuel : nat) (n : Z) : string :=
  match fuel with
  | O => ""
  | S f =>
      (if n <? 10 then "" else digits f (n / 10))
        ++ String (chr (48 + n mod 10)) ""
  end.

Definition str_nonneg (n : Z) : string := digits (S (Z.to_nat (Z.log2 n))) n.

(** [str(n)] for an [int]. *)
Definition str_int (n : Z) : string :=
  if n <? 0 then String "-" (str_nonneg (- n)) else str_nonneg n.

(** [str(b)] for a [bool]. *)
Definition str_bool (b : bool) : string := if b then "True" else "False".

Fixpoint join (sep : string) (l : list string) : string :=
  match l with
  | [] => ""
  | [x] => x
  | x :: tl => x ++ sep ++ join sep tl
  end.

(** [str(l)] for a list of [int]. *)
Definition str_int_list (l : list Z) : string :=
  "[" ++ join ", " (map str_int l) ++ "]".

End PyStr.

(** ** The C library's [inet_aton], behind [socket.inet_aton]

    [validate_ip] delegates the whole decision to [socket.inet_aton], which
    calls the platform's [inet_aton(3)].  The definitions below follow that
    routine: one to four parts separated by dots, each part read by
    [strtoul] with base 0 (a leading [0x] is hexadecimal, a leading [0] is
    octal, anything else is decimal); all parts but the last are bytes, the
    last one fills the remaining 8, 16, 24 or 32 bits; the text may be
    followed by white space. *)

Module Inet.
Import Chars.

(** Longest prefix of digits of the base, accumulated most significant
    first; returns the value and the unread suffix. *)
Fixpoint scan_digits (base : Z) (s : string) (acc : Z) : Z * string :=
  match s with
  | EmptyString => (acc, s)
  | String c tl =>
      match xdigit_val c with
      | Some d => if d <? base then scan_digits base tl (acc * base + d)
                  else (acc, s)
      | None => (acc, s)
      end
  end.

Definition is_x (c : ascii) : bool := (code c =? 120) || (code c =? 88).

(** [strtoul(cp, &endp, 0)] on text whose first character is a digit.  A
    [0x] that no hexadecimal digit follows is read as the numeral [0],
    with [x] left unread. *)
Definition strtoul0 (s : string) : Z * string :=
  match s with
  | String c0 tl =>
      if code c0 =? 48 then
        match tl with
        | String x tl1 =>
            if is_x x then
              match tl1 with
              | String h _ => if isxdigit h then scan_digits 16 tl1 0
                              else scan_digits 8 s 0
              | EmptyString => scan_digits 8 s 0
              end
            else scan_digits 8 s 0
        | EmptyString => scan_digits 8 s 0
        end
      else scan_digits 10 s 0
  | EmptyString => (0, s)
  end.

(** Largest last part when 0, 1, 2 or 3 parts are already stored. *)
Definition max_last (stored : nat) : Z :=
  match stored with
  | O => 4294967295
  | 1%nat => 16777215
  | 2%nat => 65535
  | _ => 255
  end.

Fixpoint pack (parts : list Z) (shift : Z) : Z :=
  match parts with
  | [] => 0
  | p :: tl => Z.shiftl p shift + pack tl (shift - 8)
  end.

(** The parsing loop.  [room] is the number of parts that may still be
    stored before the last one (the test [pp > res.bytes + 2]). *)
Fixpoint aton_loop (room : nat) (stored : list Z) (cp : string) : option Z :=
  match cp with
  | EmptyString => None
  | String c _ =>
      if negb (isdigit c) then None
      else
        let '(val, rest) := strtoul0 cp in
        if 4294967295 <? val then None
        else
          match rest with
          | String t rest' =>
              if code t =? 46 then             (* c == '.' *)
                match room with
                | O => None
                | S room' =>
                    if 255 <? val then None
                    else aton_loop room' (stored ++ [val]) rest'
                end
              else if negb (isspace t) then None
              else if max_last (List.length stored) <? val then None
              else Some (pack stored 24 + val)
          | EmptyString =>
              if max_last (List.length stored) <? val then None
              else Some (pack stored 24 + val)
          end
  end.

Definition inet_aton (cp : string) : option Z := aton_loop 3 [] cp.

(** [socket.inet_aton]: a [str] with an embedded NUL cannot be passed to C
    ([ValueError]); a rejected text raises [OSError] ([socket.error]). *)
Definition socket_inet_aton (ip : string) : Res Z :=
  if has_nul ip then Raise (ValueError "embedded null character")
  else match inet_aton ip with
       | Some a => Ok a
       | None => Raise (OSError "illegal IP address string passed to inet_aton")
       end.

End Inet.

(** ** [int(x)] *)

Module PyInt.
Import Chars.

(** The values [validate_port] receives: an [int] from the dispatcher or a
    [str]. *)
Inductive PyVal : Type :=
| VInt (n : Z)
| VStr (s : string).

Fixpoint lstrip (s : string) : string :=
  match s with
  | String c tl => if py_isspace c then lstrip tl else s
  | EmptyString => s
  end.

Fixpoint all_space (s : string) : bool :=
  match s with
  | String c tl => py_isspace c && all_space tl
  | EmptyString => true
  end.

(** Digits with single underscores between them, then optional trailing
    white space.  [prev] tells whether the previous character was a digit. *)
Fixpoint int_digits (s : string) (acc : Z) (prev : bool) : option Z :=
  match s with
  | EmptyString => if prev then Some acc else None
  | String c tl =>
      if isdigit c then int_digits tl (acc * 10 + (code c - 48)) true
      else if code c =? 95 then
        (if prev then
           match tl with
           | String d _ => if isdigit d then int_digits tl acc false else None
           | EmptyString => None
           end
         else None)
      else if prev && all_space s then Some acc
      else None
  end.

(** [int(s)] for a [str], base 10; [None] is [ValueError]. *)
Definition int_of_str (s : string) : option Z :=
  match lstrip s with
  | String c tl =>
      if code c =? 45 then option_map Z.opp (int_digits tl 0 false)
      else if code c =? 43 then int_digits tl 0 false
      else int_digits (String c tl) 0 false
  | EmptyString => None
  end.

Definition py_int (v : PyVal) : Res Z :=
  match v with
  | VInt n => Ok n
  | VStr s =>
      match int_of_str s with
      | Some n => Ok n
      | None => Raise (ValueError ("invalid literal for int() with base 10: " ++ s))
      end
  end.

End PyInt.

(** ** Validators *)

Module Validator.
Import PyInt.

(** [validate_ip]: [True] when [socket.inet_aton] returns, [False] when it
    raises [socket.error]; any other exception escapes. *)
Definition validate_ip (ip : string) : Res bool :=
  match Inet.socket_inet_aton ip with
  | Ok _ => Ok true
  | Raise (OSError _) => Ok false
  | Raise e => Raise e
  end.

(** [validate_port]: [1 <= int(port) <= 65535], [False] on [ValueError]
    (the only exception [int] raises on an [int] or a [str]). *)
Definition validate_port (port : PyVal) : bool :=
  match py_int port with
  | Ok p => (1 <=? p) && (p <=? 65535)
  | Raise _ => false
  end.

End Validator.


(** ** Text helpers used by the engine *)

Module Text.
Import Chars.

(** [str.lower] on ASCII letters. *)
Definition lower_char (c : ascii) : ascii :=
  if (65 <=? code c) && (code c <=? 90) then chr (code c + 32) else c.

Fixpoint lower (s : string) : string :=
  match s with
  | EmptyString => s
  | String c tl => String (lower_char c) (lower tl)
  end.

(** [pat in s]. *)
Fixpoint contains (pat s : string) : bool :=
  if prefix pat s then true
  else match s with
       | EmptyString => false
       | String _ tl => contains pat tl
       end.

(** [s.split(sep)] for a one-character separator. *)
Fixpoint split_on (sep : ascii) (s : string) : list string :=
  match s with
  | EmptyString => [""]
  | String c tl =>
      if Ascii.eqb c sep then "" :: split_on sep tl
      else match split_on sep tl with
           | [] => [String c ""]
           | x :: xs => String c x :: xs
           end
  end.

(** The escape sequences of the red theme. *)
Definition ESC : ascii := chr 27.
Definition RED : string := String ESC "[91m".
Definition RED_BG : string := String ESC "[41m".
Definition RESET : string := String ESC "[0m".
Definition BOLD : string := String ESC "[1m".
Definition NL : string := String (chr 10) "".

End Text.

(** ** Terms in which the validators are specified *)

Module SpecTerms.
Import Chars PyStr.
(** The dotted-quad literal of four octets, each written in decimal
    without leading zeros. *)
Definition dotted_quad (a b c d : Z) : string :=
  str_int a ++ "." ++ str_int b ++ "." ++ str_int c ++ "." ++ str_int d.

Definition octet (n : Z) : Prop := 0 <= n <= 255.

Fixpoint count_dots (s : string) : nat :=
  match s with
  | EmptyString => O
  | String c tl => if code c =? 46 then S (count_dots tl) else count_dots tl
  end.

(** Characters an accepted numeric form is made of: digits of any base up
    to sixteen, the [x] of a hexadecimal prefix, and the dot. *)
Definition numeral_char (c : ascii) : bool :=
  isxdigit c || (code c =? 120) || (code c =? 88) || (code c =? 46).

(** Every character before the first white space is a [numeral_char]. *)
Fixpoint numeric_text (s : string) : bool :=
  match s with
  | EmptyString => true
  | String c tl => if isspace c then true else numeral_char c && numeric_text tl
  end.

Definition starts_with_digit (s : string) : bool :=
  match s with
  | String c _ => isdigit c
  | EmptyString => false
  end.
End SpecTerms.

(** ** The process: configuration, object state, threads, events *)

Module Engine.
Import Chars PyStr PyInt Text Validator.

(** The [config] dictionary, one field per key of [DEFAULT_CONFIG]. *)
Record Config : Type := mkConfig {
  telegram_token : string;
  telegram_chat_id : string;
  monitoring_interval : Z;
  traffic_generation_duration : Z;
  max_packets_per_second : Z;
  default_ports : list Z;
  log_file : string
}.

Definition CONFIG_FILE : string := "bot_config.json".

Definition DEFAULT_CONFIG : Config := {|
  telegram_token := "";
  telegram_chat_id := "";
  monitoring_interval := 60;
  traffic_generation_duration := 30;
  max_packets_per_second := 100;
  default_ports := [80; 443; 22; 3389];
  log_file := "bot_activity.log"
|}.

(** The attributes of [CyberSecurityBot]. *)
Record Bot : Type := mkBot {
  running : bool;
  monitoring_active : bool;
  traffic_generation_active : bool;
  current_target : option string;
  current_port : option Z;
  config : Config;
  command_history : list string
}.

Definition set_monitoring_active (v : bool) (b : Bot) : Bot :=
  mkBot (running b) v (traffic_generation_active b)
        (current_target b) (current_port b) (config b) (command_history b).
Definition set_traffic_generation_active (v : bool) (b : Bot) : Bot :=
  mkBot (running b) (monitoring_active b) v
        (current_target b) (current_port b) (config b) (command_history b).
Definition set_current_target (v : option string) (b : Bot) : Bot :=
  mkBot (running b) (monitoring_active b) (traffic_generation_active b)
        v (current_port b) (config b) (command_history b).
Definition set_current_port (v : option Z) (b : Bot) : Bot :=
  mkBot (running b) (monitoring_active b) (traffic_generation_active b)
        (current_target b) v (config b) (command_history b).
Definition set_config_dict (v : Config) (b : Bot) : Bot :=
  mkBot (running b) (monitoring_active b) (traffic_generation_active b)
        (current_target b) (current_port b) v (command_history b).

(** *** What the outside world answers *)

(** [requests.post]: a response with a status code, or an exception. *)
Inductive PostResp : Type :=
| PostStatus (status_code : Z)
| PostRaises (e : Exn).

(** One traffic unit of work: [connect] raises, or [send] raises after a
    successful [connect], or both succeed. *)
Inductive UnitResp : Type :=
| UnitOk
| ConnectRaises (e : Exn)
| SendRaises (e : Exn).

(** [subprocess.check_output]: text ([CalledProcessError] is turned into
    its output by [ping_ip]), or another exception. *)
Inductive PingResp : Type :=
| PingOutput (text : string)
| PingRaises (e : Exn).

(** [connect_ex]: an error number, or an exception. *)
Inductive ProbeResp : Type :=
| ProbeResult (errno : Z)
| ProbeRaises (e : Exn).

Record Env : Type := mkEnv {
  now : Q;                              (* time.time() *)
  unit_resp : UnitResp;
  ping_resp : PingResp;
  probe_resp : nat -> Z -> ProbeResp;   (* position in the sweep, port *)
  post_resp : PostResp;
  rand : nat                            (* drives random.choice *)
}.

(** *** Events and threads *)

Inductive Event : Type :=
| EvPrint (text : string)
| EvAppend (file text : string)
| EvWriteConfig (cfg : Config)
| EvPost (url chat_id text : string)
| EvConnect (ip : string) (port : Z)
| EvSend (nbytes : Z)
| EvClose
| EvPing (ip : string)
| EvProbe (ip : string) (port : Z)
| EvSleep (seconds : Q)
| EvSpawn (tid : nat).

Inductive Actor : Type :=
| Main
| Worker (tid : nat).

(** Control points of [traffic_thread]. *)
Inductive TrafficPc : Type :=
| TStart                (* before [start_time = time.time()] *)
| TLoop                 (* at the [while] test *)
| TCleanup              (* after the loop *)
| TFinished
| TCrashed (e : Exn).   (* ended by an exception nobody caught *)

(** The closure of [traffic_thread]: the arguments of [generate_traffic]
    after defaulting, and the two locals, which get their values at
    [TStart]. *)
Record TrafficThread : Type := mkTraffic {
  t_ip : string;
  t_port : Z;
  t_duration : Z;
  t_pps : Z;
  start_time : Q;
  packet_count : Z;
  t_pc : TrafficPc
}.

(** Control points of [monitoring_thread]. *)
Inductive MonitorPc : Type :=
| MLoop                      (* at the [while] test *)
| MWaitCheck (i n : Z)       (* [for _ in range(n)], at index [i], before the test *)
| MWaitSleep (i n : Z)       (* before [time.sleep(1)] of index [i] *)
| MErrSleep                  (* in the handler, before [time.sleep(interval)] *)
| MCleanup
| MFinished
| MCrashed (e : Exn).

Record MonitorThread : Type := mkMonitor {
  m_ip : string;
  m_pc : MonitorPc
}.

Inductive Thread : Type :=
| TrafficT (t : TrafficThread)
| MonitorT (m : MonitorThread).

(** The process.  [unwritable] lists the paths that [open] refuses;
    [actor] is the thread currently running. *)
Record World : Type := mkWorld {
  bot : Bot;
  threads : list Thread;
  trace : list (Actor * Event);
  unwritable : list string;
  actor : Actor
}.

Definition with_bot (b : Bot) (w : World) : World :=
  mkWorld b (threads w) (trace w) (unwritable w) (actor w).
Definition with_threads (l : list Thread) (w : World) : World :=
  mkWorld (bot w) l (trace w) (unwritable w) (actor w).
Definition with_actor (a : Actor) (w : World) : World :=
  mkWorld (bot w) (threads w) (trace w) (unwritable w) a.
Definition add_event (e : Event) (w : World) : World :=
  mkWorld (bot w) (threads w) (trace w ++ [(actor w, e)]) (unwritable w)
          (actor w).

(** *** The monad of methods: state and exceptions *)

Definition M (A : Type) : Type := World -> Res A * World.

Definition ret {A} (a : A) : M A := fun w => (Ok a, w).
Definition raise {A} (e : Exn) : M A := fun w => (Raise e, w).
Definition bind {A B} (m : M A) (k : A -> M B) : M B :=
  fun w => match m w with
           | (Ok a, w') => k a w'
           | (Raise e, w') => (Raise e, w')
           end.
Definition lift {A} (r : Res A) : M A := fun w => (r, w).

(** [try: m / except <exceptions selected by catches> as e: h e]. *)
Definition try_except {A} (m : M A) (catches : Exn -> bool) (h : Exn -> M A)
  : M A :=
  fun w => match m w with
           | (Ok a, w') => (Ok a, w')
           | (Raise e, w') => if catches e then h e w' else (Raise e, w')
           end.

Definition any_exception (_ : Exn) : bool := true.
Definition is_value_error (e : Exn) : bool :=
  match e with ValueError _ => true | _ => false end.

Definition get_bot : M Bot := fun w => (Ok (bot w), w).
Definition modify_bot (f : Bot -> Bot) : M unit :=
  fun w => (Ok tt, with_bot (f (bot w)) w).
Definition emit (e : Event) : M unit := fun w => (Ok tt, add_event e w).

Declare Scope m_scope.
Delimit Scope m_scope with M.
Notation "x <- m ;; k" := (bind m (fun x => k))
  (at level 61, m at next level, right associativity) : m_scope.
Notation "m ;; k" := (bind m (fun _ => k))
  (at level 61, right associativity) : m_scope.
Local Open Scope m_scope.

(** [open(path, 'w')] or [open(path, 'a')]. *)
Definition open_for_writing (path : string) : M unit :=
  fun w => if existsb (String.eqb path) (unwritable w)
           then (Raise (OSError ("cannot open " ++ path)), w)
           else (Ok tt, w).

(** *** Collaborators *)

Definition save_config (cfg : Config) : M unit :=
  open_for_writing CONFIG_FILE ;;
  emit (EvWriteConfig cfg).

(** [log_activity]: the entry goes to the console, then to the end of the
    configured log file.  The entry is the message; the time stamp and the
    console tag put in front of it by the program are left out. *)
Definition log_activity (message : string) : M unit :=
  emit (EvPrint message) ;;
  b <- get_bot ;;
  open_for_writing (log_file (config b)) ;;
  emit (EvAppend (log_file (config b)) message).

Definition falsy_str (s : string) : bool :=
  match s with EmptyString => true | _ => false end.

Definition send_telegram_message (env : Env) (message : string) : M bool :=
  b <- get_bot ;;
  if falsy_str (telegram_token (config b))
     || falsy_str (telegram_chat_id (config b))
  then
    log_activity "Telegram not configured. Message not sent." ;;
    ret false
  else
    let url := "https://api.telegram.org/bot" ++ telegram_token (config b)
               ++ "/sendMessage" in
    try_except
      (emit (EvPost url (telegram_chat_id (config b)) message) ;;
       match post_resp env with
       | PostRaises e => raise e
       | PostStatus code =>
           if code =? 200 then ret true
           else
             log_activity ("Failed to send Telegram message. Status code: "
                           ++ str_int code) ;;
             ret false
       end)
      any_exception
      (fun e =>
         log_activity ("Error sending Telegram message: " ++ exn_str e) ;;
         ret false).

Definition ping_ip (env : Env) (ip : string) : M string :=
  v <- lift (validate_ip ip) ;;
  if negb v then ret ("Invalid IP address: " ++ ip)
  else
    emit (EvPing ip) ;;
    match ping_resp env with
    | PingOutput text => ret text
    | PingRaises e => raise e
    end.

(** [threading.Thread(target=..., daemon=True).start()]. *)
Definition spawn (th : Thread) : M unit :=
  fun w => (Ok tt,
            add_event (EvSpawn (List.length (threads w)))
                      (with_threads (threads w ++ [th]) w)).

(** [random.choice(seq)]. *)
Definition random_choice (env : Env) (seq : list Z) : M Z :=
  match nth_error seq (Nat.modulo (rand env) (List.length seq)) with
  | Some x => ret x
  | None => raise (IndexError "Cannot choose from an empty sequence")
  end.

(** Truth value of an optional [int] argument ([None] and [0] are false). *)
Definition truthy (x : option Z) : bool :=
  match x with
  | Some n => negb (n =? 0)
  | None => false
  end.

(** The value of an optional [int] argument that is given. *)
Definition arg (x : option Z) : Z :=
  match x with
  | Some n => n
  | None => 0
  end.

(** [f"{x}"] for an attribute that holds [None] or a value. *)
Definition fmt_target (t : option string) : string :=
  match t with Some s => s | None => "None" end.
Definition fmt_port (p : option Z) : string :=
  match p with Some n => str_int n | None => "None" end.

(** *** Traffic generation *)

Definition generate_traffic (env : Env) (ip : string)
           (port duration pps : option Z) : M string :=
  v <- lift (validate_ip ip) ;;
  if negb v then ret ("Invalid IP address: " ++ ip)
  else if truthy port && negb (validate_port (VInt (arg port)))
  then ret ("Invalid port: " ++ fmt_port port)
  else
    b <- get_bot ;;
    port' <- (if negb (truthy port)
              then random_choice env (default_ports (config b))
              else ret (arg port)) ;;
    let duration' := if negb (truthy duration)
                     then traffic_generation_duration (config b)
                     else arg duration in
    let pps' := if negb (truthy pps)
                then max_packets_per_second (config b)
                else arg pps in
    modify_bot (set_current_target (Some ip)) ;;
    modify_bot (set_current_port (Some port')) ;;
    modify_bot (set_traffic_generation_active true) ;;
    let message := "Starting traffic generation to " ++ ip ++ ":"
                   ++ str_int port' ++ " for " ++ str_int duration'
                   ++ " seconds at " ++ str_int pps' ++ " packets/sec" in
    log_activity message ;;
    send_telegram_message env ("<b>Traffic Generation Started</b>" ++ NL ++ message) ;;
    spawn (TrafficT (mkTraffic ip port' duration' pps' 0%Q 0 TStart)) ;;
    ret ("Started traffic generation to " ++ ip ++ ":" ++ str_int port').

Definition with_pc (pc : TrafficPc) (t : TrafficThread) : TrafficThread :=
  mkTraffic (t_ip t) (t_port t) (t_duration t) (t_pps t) (start_time t)
            (packet_count t) pc.
Definition count_packet (t : TrafficThread) : TrafficThread :=
  mkTraffic (t_ip t) (t_port t) (t_duration t) (t_pps t) (start_time t)
            (packet_count t + 1) (t_pc t).

(** The [except Exception as e] clause of the traffic loop. *)
Definition traffic_except (e : Exn) (t : TrafficThread) : M TrafficThread :=
  log_activity ("Error generating traffic: " ++ exn_str e) ;;
  emit (EvSleep 1%Q) ;;
  ret t.

(** [time.sleep(1/pps)], the last statement of the [try] block. *)
Definition rate_sleep (t : TrafficThread) : M TrafficThread :=
  if t_pps t =? 0 then traffic_except (ZeroDivisionError "division by zero") t
  else if t_pps t <? 0
  then traffic_except (ValueError "sleep length must be non-negative") t
  else emit (EvSleep (1 / inject_Z (t_pps t))%Q) ;; ret t.

(** One pass through the body of the [while] loop.  [packet_count] is a
    local of the thread, so what the [try] block did to it before an
    exception is kept by the handler. *)
Definition traffic_iteration (env : Env) (t : TrafficThread) : M TrafficThread :=
  if (t_port t <? 0) || (65535 <? t_port t)
  then traffic_except (OverflowError "connect(): port must be 0-65535.") t
  else
    emit (EvConnect (t_ip t) (t_port t)) ;;
    match unit_resp env with
    | ConnectRaises e => traffic_except e t
    | SendRaises e => traffic_except e (count_packet t)
    | UnitOk =>
        emit (EvSend 1024) ;;
        emit EvClose ;;
        rate_sleep (count_packet t)
    end.

(** [(time.time() - start_time) < duration]. *)
Definition before_deadline (env : Env) (t : TrafficThread) : bool :=
  negb (Qle_bool (inject_Z (t_duration t)) (now env - start_time t)%Q).

Definition traffic_stats (t : TrafficThread) : string :=
  "Traffic generation completed. Sent " ++ str_int (packet_count t)
  ++ " packets to " ++ t_ip t ++ ":" ++ str_int (t_port t).

Definition traffic_step (env : Env) (t : TrafficThread) : M TrafficThread :=
  match t_pc t with
  | TStart =>
      ret (mkTraffic (t_ip t) (t_port t) (t_duration t) (t_pps t)
                     (now env) 0 TLoop)
  | TLoop =>
      b <- get_bot ;;
      if before_deadline env t && traffic_generation_active b
      then traffic_iteration env t
      else ret (with_pc TCleanup t)
  | TCleanup =>
      modify_bot (set_traffic_generation_active false) ;;
      modify_bot (set_current_target None) ;;
      modify_bot (set_current_port None) ;;
      log_activity (traffic_stats t) ;;
      send_telegram_message env
        ("<b>Traffic Generation Complete</b>" ++ NL ++ traffic_stats t) ;;
      ret (with_pc TFinished t)
  | TFinished | TCrashed _ => ret t
  end.

Definition stop_traffic (env : Env) : M string :=
  b <- get_bot ;;
  if traffic_generation_active b then
    modify_bot (set_traffic_generation_active false) ;;
    let message := "Stopped traffic generation to "
                   ++ fmt_target (current_target b) ++ ":"
                   ++ fmt_port (current_port b) in
    log_activity message ;;
    send_telegram_message env ("<b>Traffic Generation Stopped</b>" ++ NL ++ message) ;;
    ret message
  else ret "No active traffic generation to stop".

(** *** Monitoring *)

(** [port_status[port] = status] on a dictionary kept in insertion order:
    an existing key keeps its place and takes the new value. *)
Fixpoint dict_set (d : list (Z * string)) (k : Z) (v : string)
  : list (Z * string) :=
  match d with
  | [] => [(k, v)]
  | (k', v') :: tl => if k =? k' then (k', v) :: tl
                      else (k', v') :: dict_set tl k v
  end.

(** The status one port gets in one sweep. *)
Definition classify (env : Env) (i : nat) (port : Z) : string :=
  if (port <? 0) || (65535 <? port) then "error"   (* connect_ex raises OverflowError *)
  else match probe_resp env i port with
       | ProbeResult r => if r =? 0 then "open" else "closed"
       | ProbeRaises _ => "error"
       end.

(** [for port in self.config['default_ports']: ...]; [i] counts the ports
    already probed. *)
Fixpoint sweep (env : Env) (ip : string) (ports : list Z) (i : nat)
         (port_status : list (Z * string)) : M (list (Z * string)) :=
  match ports with
  | [] => ret port_status
  | port :: rest =>
      emit (EvProbe ip port) ;;
      sweep env ip rest (S i) (dict_set port_status port (classify env i port))
  end.

Fixpoint report_lines (items : list (Z * string)) : string :=
  match items with
  | [] => ""
  | (port, status) :: tl =>
      "  Port " ++ str_int port ++ ": " ++ status ++ NL ++ report_lines tl
  end.

Definition status_report (ip : string) (online : bool)
           (port_status : list (Z * string)) : string :=
  "Monitoring Report for " ++ ip ++ ":" ++ NL
  ++ "Online: " ++ (if online then "Yes" else "No") ++ NL
  ++ "Port Status:" ++ NL
  ++ report_lines port_status.

Definition with_mpc (pc : MonitorPc) (m : MonitorThread) : MonitorThread :=
  mkMonitor (m_ip m) pc.

(** The [try] block of the monitoring loop up to the start of the wait. *)
Definition monitor_cycle (env : Env) (m : MonitorThread) : M MonitorThread :=
  ping_result <- ping_ip env (m_ip m) ;;
  let online := negb (contains "unreachable" (lower ping_result)) in
  b <- get_bot ;;
  port_status <- sweep env (m_ip m) (default_ports (config b)) 0 [] ;;
  let report := status_report (m_ip m) online port_status in
  log_activity report ;;
  send_telegram_message env ("<b>Monitoring Update</b>" ++ NL ++ report) ;;
  b' <- get_bot ;;
  ret (with_mpc (MWaitCheck 0 (monitoring_interval (config b'))) m).

Definition monitor_step (env : Env) (m : MonitorThread) : M MonitorThread :=
  match m_pc m with
  | MLoop =>
      b <- get_bot ;;
      if monitoring_active b then
        try_except (monitor_cycle env m) any_exception
          (fun e =>
             log_activity ("Monitoring error: " ++ exn_str e) ;;
             ret (with_mpc MErrSleep m))
      else ret (with_mpc MCleanup m)
  | MWaitCheck i n =>
      if i <? n then
        b <- get_bot ;;
        if negb (monitoring_active b) then ret (with_mpc MLoop m)   (* break *)
        else ret (with_mpc (MWaitSleep i n) m)
      else ret (with_mpc MLoop m)
  | MWaitSleep i n =>
      emit (EvSleep 1%Q) ;;
      ret (with_mpc (MWaitCheck (i + 1) n) m)
  | MErrSleep =>
      b <- get_bot ;;
      if monitoring_interval (config b) <? 0
      then raise (ValueError "sleep length must be non-negative")
      else
        emit (EvSleep (inject_Z (monitoring_interval (config b)))) ;;
        ret (with_mpc MLoop m)
  | MCleanup =>
      modify_bot (set_monitoring_active false) ;;
      modify_bot (set_current_target None) ;;
      let message := "Stopped monitoring of " ++ m_ip m in
      log_activity message ;;
      send_telegram_message env ("<b>Monitoring Stopped</b>" ++ NL ++ message) ;;
      ret (with_mpc MFinished m)
  | MFinished | MCrashed _ => ret m
  end.

Definition start_monitoring (env : Env) (ip : string) : M string :=
  v <- lift (validate_ip ip) ;;
  if negb v then ret ("Invalid IP address: " ++ ip)
  else
    b <- get_bot ;;
    if monitoring_active b
    then ret "Monitoring is already active. Stop current monitoring first."
    else
      modify_bot (set_monitoring_active true) ;;
      modify_bot (set_current_target (Some ip)) ;;
      let message := "Starting monitoring of " ++ ip ++ " with interval "
                     ++ str_int (monitoring_interval (config b)) ++ " seconds" in
      log_activity message ;;
      send_telegram_message env ("<b>Monitoring Started</b>" ++ NL ++ message) ;;
      spawn (MonitorT (mkMonitor ip MLoop)) ;;
      ret ("Started monitoring " ++ ip).

Definition stop_monitoring : M string :=
  b <- get_bot ;;
  if monitoring_active b then
    modify_bot (set_monitoring_active false) ;;
    ret ("Stopping monitoring of " ++ fmt_target (current_target b))
  else ret "No active monitoring to stop".

(** *** Configuration and status *)

Fixpoint ints_of (l : list string) : Res (list Z) :=
  match l with
  | [] => Ok []
  | p :: tl =>
      match py_int (VStr p) with
      | Raise e => Raise e
      | Ok n => match ints_of tl with
                | Raise e => Raise e
                | Ok ns => Ok (n :: ns)
                end
      end
  end.

Definition store_config (cfg : Config) (shown : string) (key : string)
  : M string :=
  modify_bot (set_config_dict cfg) ;;
  save_config cfg ;;
  ret ("Configuration updated: " ++ key ++ " = " ++ shown).

Definition config_keys : list string :=
  ["telegram_token"; "telegram_chat_id"; "monitoring_interval";
   "traffic_generation_duration"; "max_packets_per_second";
   "default_ports"; "log_file"].

Definition set_config (key value : string) : M string :=
  if negb (existsb (String.eqb key) config_keys)
  then ret ("Invalid configuration key: " ++ key)
  else
    b <- get_bot ;;
    let c := config b in
    try_except
      (if String.eqb key "monitoring_interval" then
         n <- lift (py_int (VStr value)) ;;
         store_config (mkConfig (telegram_token c) (telegram_chat_id c) n
                                (traffic_generation_duration c)
                                (max_packets_per_second c) (default_ports c)
                                (log_file c)) (str_int n) key
       else if String.eqb key "traffic_generation_duration" then
         n <- lift (py_int (VStr value)) ;;
         store_config (mkConfig (telegram_token c) (telegram_chat_id c)
                                (monitoring_interval c) n
                                (max_packets_per_second c) (default_ports c)
                                (log_file c)) (str_int n) key
       else if String.eqb key "max_packets_per_second" then
         n <- lift (py_int (VStr value)) ;;
         store_config (mkConfig (telegram_token c) (telegram_chat_id c)
                                (monitoring_interval c)
                                (traffic_generation_duration c) n
                                (default_ports c) (log_file c)) (str_int n) key
       else if String.eqb key "default_ports" then
         l <- lift (ints_of (split_on "," value)) ;;
         store_config (mkConfig (telegram_token c) (telegram_chat_id c)
                                (monitoring_interval c)
                                (traffic_generation_duration c)
                                (max_packets_per_second c) l (log_file c))
                      (str_int_list l) key
       else if String.eqb key "telegram_token" then
         store_config (mkConfig value (telegram_chat_id c)
                                (monitoring_interval c)
                                (traffic_generation_duration c)
                                (max_packets_per_second c) (default_ports c)
                                (log_file c)) value key
       else if String.eqb key "telegram_chat_id" then
         store_config (mkConfig (telegram_token c) value
                                (monitoring_interval c)
                                (traffic_generation_duration c)
                                (max_packets_per_second c) (default_ports c)
                                (log_file c)) value key
       else
         store_config (mkConfig (telegram_token c) (telegram_chat_id c)
                                (monitoring_interval c)
                                (traffic_generation_duration c)
                                (max_packets_per_second c) (default_ports c)
                                value) value key)
      is_value_error
      (fun _ => ret ("Invalid value for " ++ key
                     ++ ". Could not convert to required type.")).

Definition monitoring_line (b : Bot) : string :=
  RED ++ "Monitoring:" ++ RESET ++ " " ++ str_bool (monitoring_active b)
  ++ (if monitoring_active b
      then " (Target: " ++ fmt_target (current_target b) ++ ")" ++ NL
      else NL).

Definition traffic_line (b : Bot) : string :=
  RED ++ "Traffic Generation:" ++ RESET ++ " "
  ++ str_bool (traffic_generation_active b)
  ++ (if traffic_generation_active b
      then " (Target: " ++ fmt_target (current_target b) ++ ":"
           ++ fmt_port (current_port b) ++ ")" ++ NL
      else NL).

Definition show_status (b : Bot) : string :=
  RED_BG ++ BOLD ++ " Bot Status " ++ RESET ++ NL
  ++ RED ++ "Running:" ++ RESET ++ " " ++ str_bool (running b) ++ NL
  ++ monitoring_line b
  ++ traffic_line b.

(** *** The dispatcher and the scheduler *)

(** The session commands of [run_command], once the line is split and the
    numeric arguments are converted by [int].  The other commands ([help],
    [clear], [config], [history], [exit]) and the recording of the line in
    [command_history] touch no session and are left out. *)
Inductive Cmd : Type :=
| CmdGenerate (ip : string) (port duration pps : option Z)
| CmdStop
| CmdMonitor (ip : string)
| CmdStopMonitor
| CmdSetConfig (key value : string)
| CmdStatus
| CmdPing (ip : string).

Definition dispatch (env : Env) (c : Cmd) : M string :=
  try_except
    (match c with
     | CmdGenerate ip port duration pps => generate_traffic env ip port duration pps
     | CmdStop => stop_traffic env
     | CmdMonitor ip => start_monitoring env ip
     | CmdStopMonitor => stop_monitoring
     | CmdSetConfig key value => set_config key value
     | CmdStatus => b <- get_bot ;; ret (show_status b)
     | CmdPing ip => ping_ip env ip
     end)
    any_exception
    (fun e => ret ("Error executing command: " ++ exn_str e)).

Fixpoint replace_nth {A} (n : nat) (x : A) (l : list A) : list A :=
  match l, n with
  | [], _ => []
  | _ :: tl, O => x :: tl
  | y :: tl, S n' => y :: replace_nth n' x tl
  end.

(** What one scheduling decision does: the foreground thread runs a
    command to completion (its result is printed by the shell), or worker
    [tid] runs from its control point to the next one. *)
Inductive Action : Type :=
| Command (c : Cmd)
| Run (tid : nat).

Definition run_worker (env : Env) (tid : nat) (w : World) : World :=
  match nth_error (threads w) tid with
  | None => w
  | Some (TrafficT t) =>
      match traffic_step env t (with_actor (Worker tid) w) with
      | (Ok t', w') =>
          with_threads (replace_nth tid (TrafficT t') (threads w')) w'
      | (Raise e, w') =>
          with_threads
            (replace_nth tid (TrafficT (with_pc (TCrashed e) t)) (threads w')) w'
      end
  | Some (MonitorT m) =>
      match monitor_step env m (with_actor (Worker tid) w) with
      | (Ok m', w') =>
          with_threads (replace_nth tid (MonitorT m') (threads w')) w'
      | (Raise e, w') =>
          with_threads
            (replace_nth tid (MonitorT (with_mpc (MCrashed e) m)) (threads w')) w'
      end
  end.

Definition step (env : Env) (a : Action) (w : World) : World :=
  match a with
  | Command c =>
      match dispatch env c (with_actor Main w) with
      | (Ok s, w') => add_event (EvPrint s) w'
      | (Raise _, w') => w'
      end
  | Run tid => run_worker env tid w
  end.

Fixpoint run (schedule : list (Env * Action)) (w : World) : World :=
  match schedule with
  | [] => w
  | (env, a) :: rest => run rest (step env a w)
  end.

(** The object after [__init__] with the default configuration, no worker
    and every file writable. *)
Definition init_bot : Bot :=
  mkBot false false false None None DEFAULT_CONFIG [].

Definition init_world : World := mkWorld init_bot [] [] [] Main.

(** *** Observations on a world *)

Definition traffic_alive (th : Thread) : bool :=
  match th with
  | TrafficT t => match t_pc t with
                  | TStart | TLoop | TCleanup => true
                  | _ => false
                  end
  | MonitorT _ => false
  end.

Definition monitor_alive (th : Thread) : bool :=
  match th with
  | MonitorT m => match m_pc m with
                  | MFinished | MCrashed _ => false
                  | _ => true
                  end
  | TrafficT _ => false
  end.

Definition live_traffic_workers (w : World) : nat :=
  List.length (filter traffic_alive (threads w)).
Definition live_monitor_workers (w : World) : nat :=
  List.length (filter monitor_alive (threads w)).

(** Seconds slept by worker [tid] in a trace. *)
Fixpoint slept (tid : nat) (tr : list (Actor * Event)) : Q :=
  match tr with
  | [] => 0%Q
  | (Worker t, EvSleep q) :: tl =>
      if Nat.eqb t tid then (q + slept tid tl)%Q else slept tid tl
  | _ :: tl => slept tid tl
  end.


(** Whether [log_activity] can append to the configured log file. *)
Definition log_writable (w : World) : bool :=
  negb (existsb (String.eqb (log_file (config (bot w)))) (unwritable w)).

(** The world after a successful [log_activity message]. *)
Definition logged (message : string) (w : World) : World :=
  add_event (EvAppend (log_file (config (bot w))) message)
            (add_event (EvPrint message) w).

Fixpoint add_events (evs : list Event) (w : World) : World :=
  match evs with
  | [] => w
  | e :: tl => add_events tl (add_event e w)
  end.

(** [w'] is [w] with more events: nothing else differs. *)
Definition grows (w w' : World) : Prop :=
  bot w' = bot w /\ threads w' = threads w /\ unwritable w' = unwritable w
  /\ actor w' = actor w /\ exists evs, trace w' = (trace w ++ evs)%list.

(** A computation that only adds events, and that returns normally
    whenever the log file can be written. *)
Definition quiet {A} (m : M A) : Prop :=
  forall w, grows w (snd (m w))
            /\ (log_writable w = true -> exists a, fst (m w) = Ok a).

(** A computation that only adds events (it may raise). *)
Definition framed {A} (m : M A) : Prop :=
  forall w, grows w (snd (m w)).

(** A computation that leaves the attributes of the object alone. *)
Definition keeps_bot {A} (m : M A) : Prop :=
  forall w, bot (snd (m w)) = bot w.

(** Every value the computation returns satisfies [P]. *)
Definition returns {A} (P : A -> Prop) (m : M A) : Prop :=
  forall w a w', m w = (Ok a, w') -> P a.


(** The events of [w'] that [w] does not have yet. *)
Definition new_events (w w' : World) : list (Actor * Event) :=
  skipn (List.length (trace w)) (trace w').



End Engine.

(** ** Environments and schedules used in the examples *)

Module Scenarios.
Import Engine.

(** Everything answers: connections are accepted, ping replies, every
    probed port is open, Telegram returns 200. *)
Definition calm : Env :=
  mkEnv 0%Q UnitOk (PingOutput "4 packets transmitted, 4 received")
        (fun _ _ => ProbeResult 0) (PostStatus 200) 0.


(** The target refuses the connection. *)
Definition refusing : Env :=
  mkEnv 0%Q (ConnectRaises (OSError "[Errno 111] Connection refused"))
        (PingOutput "4 packets transmitted, 4 received")
        (fun _ _ => ProbeResult 111) (PostStatus 200) 0.

(** The [ping] program cannot be started. *)
Definition no_ping : Env :=
  mkEnv 0%Q UnitOk
        (PingRaises (OSError "[Errno 2] No such file or directory: 'ping'"))
        (fun _ _ => ProbeResult 0) (PostStatus 200) 0.


(** [generate 10.0.0.1 80 2 10]; the worker starts and sends one block. *)
Definition one_traffic_session : list (Env * Action) :=
  [ (calm, Command (CmdGenerate "10.0.0.1" (Some 80) (Some 2) (Some 10)));
    (calm, Run 0%nat);
    (calm, Run 0%nat) ].

(** [monitor 8.8.8.8]; the first cycle fails because ping cannot be
    started; [stopmonitor] arrives while the worker is in the handler. *)
Definition stop_during_error_wait : list (Env * Action) :=
  [ (calm, Command (CmdMonitor "8.8.8.8"));
    (no_ping, Run 0%nat);
    (calm, Command CmdStopMonitor) ].

(** [monitor 8.8.8.8]; the first cycle succeeds and the worker has tested
    the flag of the first tick; [stopmonitor] arrives during that tick. *)
Definition stop_during_tick : list (Env * Action) :=
  [ (calm, Command (CmdMonitor "8.8.8.8"));
    (calm, Run 0%nat);
    (calm, Run 0%nat);
    (calm, Command CmdStopMonitor) ].

(** After [stop_during_tick], [monitor 1.1.1.1] arrives before the tick
    is over; the first worker finishes its tick and tests the flag. *)
Definition restart_during_tick : list (Env * Action) :=
  (stop_during_tick
     ++ [ (calm, Command (CmdMonitor "1.1.1.1"));
          (calm, Run 0%nat);
          (calm, Run 0%nat) ])%list.




(** A world with a traffic session at its loop test. *)
Definition traffic_running : World := run one_traffic_session init_world.

(** A world with a monitoring session at its loop test. *)
Definition monitoring_running : World :=
  run [(calm, Command (CmdMonitor "8.8.8.8"))] init_world.

(** A world with both sessions: the traffic session was started first. *)
Definition both_running : World :=
  run [(calm, Command (CmdMonitor "8.8.8.8"))] traffic_running.

(** The worker of [traffic_running] and the worker of
    [monitoring_running]. *)
Definition worker0 : TrafficThread :=
  mkTraffic "10.0.0.1" 80 2 10 0%Q 1 TLoop.
Definition monitor0 : MonitorThread := mkMonitor "8.8.8.8" MLoop.

End Scenarios.

(** ** The command interpreter and the interactive shell *)

Module Shell.
Import Chars PyStr PyInt Text Validator Engine.
Local Open Scope m_scope.

Definition set_running (v : bool) (b : Bot) : Bot :=
  mkBot v (monitoring_active b) (traffic_generation_active b)
        (current_target b) (current_port b) (config b) (command_history b).

(** [self.command_history.append(command)]. *)
Definition push_history (command : string) (b : Bot) : Bot :=
  mkBot (running b) (monitoring_active b) (traffic_generation_active b)
        (current_target b) (current_port b) (config b)
        (command_history b ++ [command]).

(** [s.split()]: the maximal runs of characters that are not white
    space. *)
Fixpoint split_ws (s : string) : list string :=
  match s with
  | EmptyString => []
  | String c tl =>
      if py_isspace c then split_ws tl
      else
        match tl with
        | EmptyString => [String c ""]
        | String c' _ =>
            if py_isspace c' then String c "" :: split_ws tl
            else match split_ws tl with
                 | t :: ts => String c t :: ts
                 | [] => [String c ""]
                 end
        end
  end.

(** [s.rstrip()] and [s.strip()]. *)
Fixpoint rstrip (s : string) : string :=
  match s with
  | EmptyString => s
  | String c tl => if all_space s then "" else String c (rstrip tl)
  end.

Definition strip (s : string) : string := rstrip (lstrip s).

(** [repr(s)] for a [str]: single quotes unless the text has a single
    quote and no double quote; the quote in use and the backslash are
    escaped, control characters are written [\t], [\n], [\r] or [\xhh]. *)
Fixpoint has_char (k : Z) (s : string) : bool :=
  match s with
  | EmptyString => false
  | String c tl => (code c =? k) || has_char k tl
  end.

Definition hex_digit (n : Z) : ascii :=
  if n <? 10 then chr (48 + n) else chr (87 + n).

Definition BACKSLASH : ascii := chr 92.

Definition repr_char (quote : Z) (c : ascii) : string :=
  if (code c =? quote) || (code c =? 92) then String BACKSLASH (String c "")
  else if code c =? 9 then String BACKSLASH "t"
  else if code c =? 10 then String BACKSLASH "n"
  else if code c =? 13 then String BACKSLASH "r"
  else if (code c <? 32) || (code c =? 127)
  then String BACKSLASH
              (String "x" (String (hex_digit (code c / 16))
                                  (String (hex_digit (code c mod 16)) "")))
  else String c "".

Fixpoint repr_body (quote : Z) (s : string) : string :=
  match s with
  | EmptyString => ""
  | String c tl => repr_char quote c ++ repr_body quote tl
  end.

Definition repr_str (s : string) : string :=
  let quote := if has_char 39 s && negb (has_char 34 s) then 34 else 39 in
  String (chr quote) (repr_body quote s ++ String (chr quote) "").

(** [int(text)] on an argument of the command line.  The limit that
    recent interpreters put on the number of digits is not modelled. *)
Definition int_arg (text : string) : Res Z :=
  match int_of_str text with
  | Some n => Ok n
  | None => Raise (ValueError ("invalid literal for int() with base 10: "
                               ++ repr_str text))
  end.

(** [clear_screen]: [os.system] acts on the terminal only; the trace keeps
    what is written, so nothing is recorded. *)
Definition clear_screen : M string := ret "Screen cleared".

(** [show_help]: the help menu. *)
Definition show_help : string :=
  NL
  ++ RED_BG ++ BOLD ++ " Accurate Cyber Security Bot - Help Menu " ++ RESET ++ NL
  ++ NL
  ++ BOLD ++ "Available Commands:" ++ RESET ++ NL
  ++ "  " ++ RED ++ "help" ++ RESET ++ "               - Show this help message" ++ NL
  ++ "  " ++ RED ++ "exit" ++ RESET ++ "               - Exit the bot" ++ NL
  ++ "  " ++ RED ++ "clear" ++ RESET ++ "              - Clear the screen" ++ NL
  ++ "  " ++ RED ++ "ping <IP>" ++ RESET ++ "          - Ping an IP address" ++ NL
  ++ "  " ++ RED ++ "generate <IP> [port] [duration] [pps]" ++ RESET ++ " - Generate network traffic" ++ NL
  ++ "  " ++ RED ++ "stop" ++ RESET ++ "               - Stop traffic generation" ++ NL
  ++ "  " ++ RED ++ "monitor <IP>" ++ RESET ++ "       - Start monitoring an IP address" ++ NL
  ++ "  " ++ RED ++ "stopmonitor" ++ RESET ++ "        - Stop monitoring" ++ NL
  ++ "  " ++ RED ++ "config" ++ RESET ++ "             - Show current configuration" ++ NL
  ++ "  " ++ RED ++ "setconfig <key> <value>" ++ RESET ++ " - Set configuration value" ++ NL
  ++ "  " ++ RED ++ "history" ++ RESET ++ "            - Show command history" ++ NL
  ++ "  " ++ RED ++ "status" ++ RESET ++ "             - Show current bot status" ++ NL
  ++ NL
  ++ BOLD ++ "Examples:" ++ RESET ++ NL
  ++ "  ping 192.168.1.1" ++ NL
  ++ "  generate 192.168.1.1 80 60 50" ++ NL
  ++ "  monitor 8.8.8.8" ++ NL
  ++ "  setconfig telegram_token YOUR_TOKEN" ++ NL
  ++ "  setconfig telegram_chat_id YOUR_CHAT_ID" ++ NL.

(** The banner printed by [start]. *)
Definition banner : string :=
  NL
  ++ RED_BG ++ BOLD ++ "   ACCURATE CYBER DEFENSE SECURITY BOT - NETWORK TRAFFIC GENERATOR   " ++ RESET ++ NL
  ++ RED ++ "Version: 1.0" ++ RESET ++ NL
  ++ RED ++ "Type 'help' for available commands" ++ RESET ++ NL.

(** [value[:3] + "..." + value[-3:]], applied to a secret that is not
    empty. *)
Definition mask (value : string) : string :=
  if falsy_str value then value
  else substring 0 3 value ++ "..."
       ++ substring (String.length value - 3) 3 value.

Definition config_line (key value : string) : string :=
  RED ++ key ++ ":" ++ RESET ++ " " ++ value ++ NL.

(** [show_config], for a dictionary that has the keys of [DEFAULT_CONFIG]
    in their order (the dictionary made by [DEFAULT_CONFIG.copy()], or
    read from a file that [save_config] wrote). *)
Definition show_config (c : Config) : string :=
  RED_BG ++ BOLD ++ " Current Configuration " ++ RESET ++ NL
  ++ config_line "telegram_token" (mask (telegram_token c))
  ++ config_line "telegram_chat_id" (mask (telegram_chat_id c))
  ++ config_line "monitoring_interval" (str_int (monitoring_interval c))
  ++ config_line "traffic_generation_duration"
                 (str_int (traffic_generation_duration c))
  ++ config_line "max_packets_per_second" (str_int (max_packets_per_second c))
  ++ config_line "default_ports" (str_int_list (default_ports c))
  ++ config_line "log_file" (log_file c).

(** [l[-n:]]. *)
Definition last_n {A} (n : nat) (l : list A) : list A :=
  skipn (List.length l - n) l.

(** The lines of [enumerate(commands, i)]. *)
Fixpoint history_lines (i : Z) (commands : list string) : string :=
  match commands with
  | [] => ""
  | c :: tl => str_int i ++ ". " ++ c ++ NL ++ history_lines (i + 1) tl
  end.

Definition show_history (b : Bot) : string :=
  match command_history b with
  | [] => "No commands in history"
  | h => RED_BG ++ BOLD ++ " Command History " ++ RESET ++ NL
         ++ history_lines 1 (last_n 10 h)
  end.

Definition unknown_command (cmd : string) : string :=
  "Unknown command: " ++ cmd ++ ". Type 'help' for available commands.".

Definition usage_generate : string :=
  "Usage: generate <IP> [port] [duration] [pps]".

(** The [if]/[elif] chain of [run_command] on the lower-cased command
    word and its arguments. *)
Definition run_parts (env : Env) (cmd : string) (args : list string)
  : M string :=
  if String.eqb cmd "help" then ret show_help
  else if String.eqb cmd "exit" then
    modify_bot (set_running false) ;; ret "Exiting..."
  else if String.eqb cmd "clear" then clear_screen
  else if String.eqb cmd "ping" && Nat.eqb (List.length args) 1
  then ping_ip env (nth 0 args "")
  else if String.eqb cmd "generate" then
    match args with
    | [ip] => generate_traffic env ip None None None
    | [ip; port] =>
        p <- lift (int_arg port) ;;
        generate_traffic env ip (Some p) None None
    | [ip; port; duration] =>
        p <- lift (int_arg port) ;;
        d <- lift (int_arg duration) ;;
        generate_traffic env ip (Some p) (Some d) None
    | [ip; port; duration; pps] =>
        p <- lift (int_arg port) ;;
        d <- lift (int_arg duration) ;;
        r <- lift (int_arg pps) ;;
        generate_traffic env ip (Some p) (Some d) (Some r)
    | _ => ret usage_generate
    end
  else if String.eqb cmd "stop" then stop_traffic env
  else if String.eqb cmd "monitor" && Nat.eqb (List.length args) 1
  then start_monitoring env (nth 0 args "")
  else if String.eqb cmd "stopmonitor" then stop_monitoring
  else if String.eqb cmd "config" then
    b <- get_bot ;; ret (show_config (config b))
  else if String.eqb cmd "setconfig" && Nat.leb 2 (List.length args)
  then set_config (nth 0 args "") (join " " (List.tl args))
  else if String.eqb cmd "history" then b <- get_bot ;; ret (show_history b)
  else if String.eqb cmd "status" then b <- get_bot ;; ret (show_status b)
  else ret (unknown_command cmd).

(** [run_command]. *)
Definition run_command (env : Env) (command : string) : M string :=
  modify_bot (push_history command) ;;
  match split_ws command with
  | [] => ret ""
  | word :: args =>
      try_except (run_parts env (lower word) args) any_exception
                 (fun e => ret ("Error executing command: " ++ exn_str e))
  end.

(** What [input] gives to the loop of [start]: a line, Ctrl-C, or the end
    of the input. *)
Inductive Input : Type :=
| Line (text : string)
| Interrupt
| EndOfFile.

(** One pass through the body of the [while] loop of [start].  The
    prompt that [input] writes is not recorded. *)
Definition shell_turn (env : Env) (i : Input) : M unit :=
  match i with
  | Line text =>
      let command := strip text in
      if falsy_str command then ret tt
      else
        result <- run_command env command ;;
        if falsy_str result then ret tt else emit (EvPrint result)
  | Interrupt => emit (EvPrint (NL ++ "Use 'exit' to quit the bot"))
  | EndOfFile =>
      modify_bot (set_running false) ;;
      emit (EvPrint (NL ++ "Exiting..."))
  end.

(** While the shell waits for input the workers run: a turn is a pass of
    the shell loop or a step of a worker. *)
Inductive Turn : Type :=
| Read (i : Input)
| Work (tid : nat).

(** The [while self.running] loop under a schedule.  A schedule that ends
    while [running] holds leaves the shell at its prompt. *)
Fixpoint shell_loop (schedule : list (Env * Turn)) (w : World)
  : Res unit * World :=
  match schedule with
  | [] => (Ok tt, w)
  | (env, turn) :: rest =>
      if running (bot w) then
        match turn with
        | Read i =>
            match shell_turn env i (with_actor Main w) with
            | (Ok _, w') => shell_loop rest w'
            | (Raise e, w') => (Raise e, w')
            end
        | Work tid => shell_loop rest (run_worker env tid w)
        end
      else (Ok tt, w)
  end.

(** The statements of [start] after the loop. *)
Definition shutdown (env : Env) : M unit :=
  b <- get_bot ;;
  (if monitoring_active b then stop_monitoring ;; ret tt else ret tt) ;;
  b' <- get_bot ;;
  (if traffic_generation_active b' then stop_traffic env ;; ret tt
   else ret tt) ;;
  log_activity "Bot stopped".

(** [start]: [env] answers the calls made after the loop. *)
Definition start (schedule : list (Env * Turn)) (env : Env) : M unit :=
  fun w =>
    let w0 := add_event (EvPrint banner)
                        (with_bot (set_running true (bot w)) (with_actor Main w)) in
    match shell_loop schedule w0 with
    | (Raise e, w1) => (Raise e, w1)
    | (Ok _, w1) =>
        if running (bot w1) then (Ok tt, w1)
        else shutdown env (with_actor Main w1)
    end.

End Shell.

(** ** Loading the configuration *)

Module Loader.
Import Engine.

Section Load.
Variable V : Type.   (* the values of the JSON document *)

(** What [open] and [json.load] find: no file, some other failure of
    [open] or of the decoder, text that is not JSON, or a JSON object,
    as the dictionary [json.load] returns ([entries] in the order of the
    document).  Documents that are not objects are left out. *)
Inductive ConfigFile : Type :=
| Missing
| Fails (e : Exn)
| NotJson
| JsonObject (entries : list (string * V)).

(** [key in config]. *)
Definition has_key (key : string) (d : list (string * V)) : bool :=
  existsb (fun kv => String.eqb key (fst kv)) d.

(** [config[key]]. *)
Fixpoint dict_get (key : string) (d : list (string * V)) : option V :=
  match d with
  | [] => None
  | (k, v) :: tl => if String.eqb key k then Some v else dict_get key tl
  end.

(** [for key in DEFAULT_CONFIG: if key not in config: config[key] =
    DEFAULT_CONFIG[key]]. *)
Fixpoint merge_defaults (defaults config : list (string * V))
  : list (string * V) :=
  match defaults with
  | [] => config
  | (k, v) :: rest =>
      merge_defaults rest (if has_key k config then config
                           else config ++ [(k, v)])
  end.

(** [load_config]: only [FileNotFoundError] and [JSONDecodeError] are
    caught. *)
Definition load_config (defaults : list (string * V)) (file : ConfigFile)
  : Res (list (string * V)) :=
  match file with
  | Missing | NotJson => Ok defaults
  | Fails e => Raise e
  | JsonObject entries => Ok (merge_defaults defaults entries)
  end.

End Load.

Arguments Missing {V}.
Arguments Fails {V} e.
Arguments NotJson {V}.
Arguments JsonObject {V} entries.
Arguments has_key {V} key d.
Arguments dict_get {V} key d.
Arguments merge_defaults {V} defaults config.
Arguments load_config {V} defaults file.

End Loader.

(** ** Runs of one worker, and terms used in the statements *)

Module Runs.
Import Engine.

(** Successive steps of one monitoring worker, nothing else running;
    stops at the first exception. *)
Fixpoint monitor_run (envs : list Env) (m : MonitorThread) (w : World)
  : Res MonitorThread * World :=
  match envs with
  | [] => (Ok m, w)
  | env :: rest =>
      match monitor_step env m w with
      | (Ok m', w') => monitor_run rest m' w'
      | (Raise e, w') => (Raise e, w')
      end
  end.




(** A computation that leaves [command_history] alone. *)
Definition keeps_history {A} (m : M A) : Prop :=
  forall w, command_history (bot (snd (m w))) = command_history (bot w).

(** Every character of the text satisfies [P]. *)
Fixpoint string_forall (P : ascii -> bool) (s : string) : bool :=
  match s with
  | EmptyString => true
  | String c tl => P c && string_forall P tl
  end.

(** A word of a command line: not empty, no white space. *)
Definition is_word (s : string) : bool :=
  negb (PyInt.all_space s)
  && string_forall (fun c => negb (Chars.py_isspace c)) s.

(** Whether the configuration file can be written. *)
Definition config_writable (w : World) : bool :=
  negb (existsb (String.eqb CONFIG_FILE) (unwritable w)).

Definition with_default_ports (l : list Z) (c : Config) : Config :=
  mkConfig (telegram_token c) (telegram_chat_id c) (monitoring_interval c)
           (traffic_generation_duration c) (max_packets_per_second c) l
           (log_file c).

(** The world after a successful [store_config]. *)
Definition stored (c : Config) (w : World) : World :=
  add_event (EvWriteConfig c) (with_bot (set_config_dict c (bot w)) w).

End Runs.

(** ** Worlds and sessions at the shell *)

Module Cases.
Import Engine Scenarios Shell.


(** The log file cannot be opened. *)
Definition read_only_log : World :=
  mkWorld init_bot [] [] ["bot_activity.log"] Main.

(** A bot with Telegram credentials. *)
Definition telegram_world : World :=
  mkWorld (set_config_dict
             (mkConfig "123456:ABC-DEF" "42" 60 30 100 [80; 443; 22; 3389]
                       "bot_activity.log")
             init_bot)
          [] [] [] Main.

(** The service answers with status 500. *)
Definition telegram_down : Env :=
  mkEnv 0%Q UnitOk (PingOutput "4 packets transmitted, 4 received")
        (fun _ _ => ProbeResult 0) (PostStatus 500) 0.

(** A monitoring worker at the start of its wait of two seconds. *)
Definition waiting_monitor : MonitorThread :=
  mkMonitor "8.8.8.8" (MWaitCheck 0 2).

(** A session at the prompt: monitoring is started and its worker runs
    once, a traffic session is started, and the user leaves. *)
Definition shell_session : list (Env * Turn) :=
  [ (calm, Read (Line "monitor 8.8.8.8"));
    (calm, Work 0%nat);
    (calm, Read (Line "generate 10.0.0.1 80 2 10"));
    (calm, Read (Line "  Exit now  ")) ].


(** A configuration file that sets one known key and one unknown key, and
    the defaults it is merged with. *)
Definition file_entries : list (string * Z) :=
  [("monitoring_interval", 5); ("colour", 1)].
Definition two_defaults : list (string * Z) :=
  [("monitoring_interval", 60); ("max_packets_per_second", 100)].

End Cases.

(** * Properties *)

(** ** Numerals: [int] reads what [str] writes *)

Module NumeralFacts.
Import Chars PyStr PyInt.










End NumeralFacts.

Module ValidatorFacts.
Import Chars PyStr PyInt Validator NumeralFacts.



End ValidatorFacts.

(** ** [inet_aton] *)

Module InetFacts.
Import Chars PyStr Inet Validator SpecTerms.

Ltac each_octet n H :=
  let k := fresh "k" in
  let Hk := fresh "Hk" in
  assert (Hk : n = Z.of_nat (Z.to_nat n)) by (unfold octet in H; lia);
  assert (Z.to_nat n < 256)%nat by (unfold octet in H; lia);
  set (k := Z.to_nat n) in *; clearbody k; subst n;
  do 256 (destruct k as [|k]; [reflexivity|]); exfalso; lia.

Lemma aton_loop_dot (n : Z) (room : nat) (stored : list Z) (t : string) :
  octet n ->
  aton_loop (S room) stored (str_int n ++ String "." t)
  = aton_loop room (stored ++ [n]) t.
Proof. intros H. each_octet n H. Qed.

Lemma aton_loop_last (n a b c : Z) :
  octet n ->
  aton_loop 0 [a; b; c] (str_int n) = Some (pack [a; b; c] 24 + n).
Proof. intros H. each_octet n H. Qed.


Lemma xdigit_numeral (c : ascii) (d : Z) :
  xdigit_val c = Some d -> numeral_char c = true.
Proof. intros H. unfold numeral_char, isxdigit. rewrite H. reflexivity. Qed.

Lemma numeric_text_cons (c : ascii) (tl : string) :
  numeral_char c = true -> numeric_text tl = true ->
  numeric_text (String c tl) = true.
Proof. intros Hc Htl. cbn [numeric_text]. rewrite Hc, Htl. destruct (isspace c); reflexivity. Qed.

Lemma scan_digits_text (base : Z) (s : string) :
  forall acc v rest, scan_digits base s acc = (v, rest) ->
    numeric_text rest = true -> numeric_text s = true.
Proof.
  induction s as [|c tl IH]; intros acc v rest Hs Hrest.
  - cbn in Hs. injection Hs as _ <-. exact Hrest.
  - cbn [scan_digits] in Hs. destruct (xdigit_val c) as [d|] eqn:Hd.
    + destruct (d <? base).
      * apply numeric_text_cons; [eapply xdigit_numeral; eauto | eapply IH; eauto].
      * injection Hs as _ <-. exact Hrest.
    + injection Hs as _ <-. exact Hrest.
Qed.

Lemma strtoul0_text (s : string) (v : Z) (rest : string) :
  strtoul0 s = (v, rest) -> numeric_text rest = true -> numeric_text s = true.
Proof.
  intros Hs Hrest. destruct s as [|c0 tl]; [cbn in Hs; injection Hs as _ <-; exact Hrest|].
  unfold strtoul0 in Hs.
  destruct (code c0 =? 48) eqn:H0; [|eapply scan_digits_text; eauto].
  destruct tl as [|x tl1]; [eapply scan_digits_text; eauto|].
  destruct (is_x x) eqn:Hx; [|eapply scan_digits_text; eauto].
  destruct tl1 as [|h tl2]; [eapply scan_digits_text; eauto|].
  destruct (isxdigit h) eqn:Hh; [|eapply scan_digits_text; eauto].
  apply numeric_text_cons.
  - unfold numeral_char, isxdigit, xdigit_val, isdigit.
    apply Z.eqb_eq in H0. rewrite H0. reflexivity.
  - apply numeric_text_cons.
    + unfold numeral_char. unfold is_x in Hx.
      destruct (isxdigit x), (code x =? 120), (code x =? 88); try reflexivity; discriminate.
    + eapply scan_digits_text; eauto.
Qed.

Lemma aton_loop_text (room : nat) :
  forall stored cp a, aton_loop room stored cp = Some a ->
    starts_with_digit cp = true /\ numeric_text cp = true.
Proof.
  induction room as [|room IH]; intros stored cp a H;
    (destruct cp as [|c tl]; [discriminate|]);
    cbn [aton_loop] in H;
    (destruct (isdigit c) eqn:Hc; [|discriminate]); cbn [negb] in H;
    destruct (strtoul0 (String c tl)) as [val rest] eqn:Hs;
    (destruct (4294967295 <? val); [discriminate|]);
    (split; [exact Hc|]);
    apply (strtoul0_text _ _ _ Hs);
    (destruct rest as [|t rest']; [reflexivity|]);
    destruct (code t =? 46) eqn:Ht; try discriminate.
  - cbn [numeric_text]. destruct (isspace t); [reflexivity|discriminate].
  - destruct (255 <? val); [discriminate|].
    apply IH in H. destruct H as [_ H].
    apply numeric_text_cons; [|exact H].
    unfold numeral_char. rewrite Ht. apply orb_true_r.
  - cbn [numeric_text]. destruct (isspace t); [reflexivity|discriminate].
Qed.


Lemma has_nul_octet (n : Z) (t : string) :
  octet n -> has_nul (str_int n ++ t) = has_nul t.
Proof. intros H. each_octet n H. Qed.

Lemma append_nil (s : string) : s ++ "" = s.
Proof. induction s; cbn; congruence. Qed.

Lemma dotted_quad_accepted (a b c d : Z) :
  octet a -> octet b -> octet c -> octet d ->
  inet_aton (dotted_quad a b c d) = Some (pack [a; b; c] 24 + d)
  /\ has_nul (dotted_quad a b c d) = false.
Proof.
  intros Ha Hb Hc Hd. unfold dotted_quad, inet_aton. cbn [append]. split.
  - rewrite !aton_loop_dot by assumption. cbn [app].
    apply aton_loop_last, Hd.
  - rewrite (has_nul_octet a) by assumption. cbn [has_nul].
    rewrite (has_nul_octet b) by assumption. cbn [has_nul].
    rewrite (has_nul_octet c) by assumption. cbn [has_nul].
    rewrite <- (append_nil (str_int d)), (has_nul_octet d) by assumption.
    reflexivity.
Qed.

Lemma count_dots_app (s t : string) :
  count_dots (s ++ t) = (count_dots s + count_dots t)%nat.
Proof.
  induction s as [|c tl IH]; cbn; [reflexivity|].
  destruct (code c =? 46); cbn; rewrite IH; reflexivity.
Qed.

Lemma dotted_quad_dots (a b c d : Z) : (3 <= count_dots (dotted_quad a b c d))%nat.
Proof.
  unfold dotted_quad. cbn [append].
  repeat (rewrite count_dots_app; cbn [count_dots]).
  change (code "." =? 46) with true. cbv iota. lia.
Qed.

(** C5, counterexample.  [validate_ip] returns success for texts that are
    not dotted quads: the two-part form [127.1], a hexadecimal part, and a
    single 32-bit number. *)
Lemma validate_ip_accepts_shorthand :
  validate_ip "127.1" = Ok true
  /\ validate_ip "0x7f.0.0.1" = Ok true
  /\ validate_ip "2130706433" = Ok true
  /\ forall a b c d, "127.1" <> dotted_quad a b c d.
Proof.
  split; [reflexivity|]. split; [reflexivity|]. split; [reflexivity|].
  intros a b c d E. pose proof (dotted_quad_dots a b c d) as H.
  rewrite <- E in H. cbn in H. lia.
Qed.

(** C5, amended.  [validate_ip] answers as [inet_aton] does on every text
    without a NUL character: it returns success for every dotted quad of
    four decimal octets 0-255 written without leading zeros, and failure
    for every text that does not start with a decimal digit or that has,
    before its first white space, a character other than a hexadecimal
    digit, [x], [X] or a dot (so for IPv6 literals and host names).  It is
    a function of the text alone: no state is read or written and no name
    is resolved. *)
Theorem validate_ip_follows_inet_aton :
  (forall a b c d, octet a -> octet b -> octet c -> octet d ->
                   validate_ip (dotted_quad a b c d) = Ok true)
  /\ (forall s, has_nul s = false ->
                starts_with_digit s = false \/ numeric_text s = false ->
                validate_ip s = Ok false)
  /\ (forall s, has_nul s = false ->
                validate_ip s = Ok (match inet_aton s with
                                    | Some _ => true
                                    | None => false
                                    end)).
Proof.
  assert (Hdec : forall s, has_nul s = false ->
                           validate_ip s = Ok (match inet_aton s with
                                               | Some _ => true
                                               | None => false
                                               end)).
  { intros s Hn. unfold validate_ip, socket_inet_aton. rewrite Hn.
    destruct (inet_aton s); reflexivity. }
  split; [|split; [|exact Hdec]].
  - intros a b c d Ha Hb Hc Hd.
    destruct (dotted_quad_accepted a b c d Ha Hb Hc Hd) as [E Hn].
    rewrite (Hdec _ Hn), E. reflexivity.
  - intros s Hn Hbad. rewrite (Hdec _ Hn).
    destruct (inet_aton s) as [x|] eqn:E; [|reflexivity].
    apply aton_loop_text in E. destruct E as [E1 E2].
    destruct Hbad as [Hbad | Hbad]; congruence.
Qed.

(** C5 (amended) at 10.0.0.1, an IPv6 literal, a host name and 999.999.999.999. *)
Lemma validate_ip_follows_inet_aton_witness :
  validate_ip (dotted_quad 10 0 0 1) = Ok true
  /\ validate_ip "2001:db8::1" = Ok false
  /\ validate_ip "example.com" = Ok false
  /\ validate_ip "999.999.999.999" = Ok false.
Proof.
  destruct validate_ip_follows_inet_aton as (H1 & H2 & H3).
  split; [|split; [|split]].
  - apply H1; unfold octet; lia.
  - apply H2; [reflexivity | right; reflexivity].
  - apply H2; [reflexivity | left; reflexivity].
  - apply (H3 "999.999.999.999"). reflexivity.
Defined.

End InetFacts.

(** ** The monad and the collaborators *)

Module EngineFacts.
Import Chars PyStr PyInt Text Validator Engine.

Lemma grows_refl (w : World) : grows w w.
Proof. repeat split. exists []. symmetry. apply app_nil_r. Qed.

Lemma grows_trans (w1 w2 w3 : World) : grows w1 w2 -> grows w2 w3 -> grows w1 w3.
Proof.
  intros (B1 & T1 & U1 & A1 & e1 & E1) (B2 & T2 & U2 & A2 & e2 & E2).
  repeat split; try congruence.
  exists (e1 ++ e2)%list. rewrite E2, E1. symmetry. apply app_assoc.
Qed.

Lemma grows_add_event (e : Event) (w : World) : grows w (add_event e w).
Proof. repeat split. eexists. reflexivity. Qed.

Lemma grows_log_writable (w w' : World) :
  grows w w' -> log_writable w' = log_writable w.
Proof. intros (B & _ & U & _). unfold log_writable. rewrite B, U. reflexivity. Qed.

(** *** Equations of the monad *)

Lemma bind_get_bot {A} (k : Bot -> M A) (w : World) :
  bind get_bot k w = k (bot w) w.
Proof. reflexivity. Qed.

Lemma bind_modify_bot {A} (f : Bot -> Bot) (k : unit -> M A) (w : World) :
  bind (modify_bot f) k w = k tt (with_bot (f (bot w)) w).
Proof. reflexivity. Qed.

Lemma bind_emit {A} (e : Event) (k : unit -> M A) (w : World) :
  bind (emit e) k w = k tt (add_event e w).
Proof. reflexivity. Qed.

Lemma bind_ret {A B} (a : A) (k : A -> M B) (w : World) :
  bind (ret a) k w = k a w.
Proof. reflexivity. Qed.

Lemma bind_lift_ok {A B} (a : A) (k : A -> M B) (w : World) :
  bind (lift (Ok a)) k w = k a w.
Proof. reflexivity. Qed.

(** *** Framing rules of the monad *)

Lemma framed_ret {A} (a : A) : framed (ret a).
Proof. intros w. apply grows_refl. Qed.

Lemma framed_raise {A} (e : Exn) : framed (@raise A e).
Proof. intros w. apply grows_refl. Qed.

Lemma framed_lift {A} (r : Res A) : framed (lift r).
Proof. intros w. apply grows_refl. Qed.

Lemma framed_get_bot : framed get_bot.
Proof. intros w. apply grows_refl. Qed.

Lemma framed_emit (e : Event) : framed (emit e).
Proof. intros w. apply grows_add_event. Qed.

Lemma framed_open (path : string) : framed (open_for_writing path).
Proof. intros w. unfold open_for_writing. destruct (existsb _ _); apply grows_refl. Qed.

Lemma framed_bind {A B} (m : M A) (k : A -> M B) :
  framed m -> (forall a, framed (k a)) -> framed (bind m k).
Proof.
  intros Hm Hk w. unfold bind. specialize (Hm w).
  destruct (m w) as [[a|e] w']; cbn in Hm |- *; [|exact Hm].
  eapply grows_trans; [exact Hm | apply Hk].
Qed.

Lemma framed_try {A} (m : M A) (c : Exn -> bool) (h : Exn -> M A) :
  framed m -> (forall e, framed (h e)) -> framed (try_except m c h).
Proof.
  intros Hm Hh w. unfold try_except. specialize (Hm w).
  destruct (m w) as [[a|e] w']; cbn in Hm |- *; [exact Hm|].
  destruct (c e); [|exact Hm].
  eapply grows_trans; [exact Hm | apply Hh].
Qed.

Lemma framed_if {A} (b : bool) (m1 m2 : M A) :
  framed m1 -> framed m2 -> framed (if b then m1 else m2).
Proof. destruct b; auto. Qed.

Ltac framing0 :=
  repeat first
    [ apply framed_ret | apply framed_raise | apply framed_lift
    | apply framed_get_bot | apply framed_emit | apply framed_open
    | apply framed_if
    | apply framed_bind; [|intros ?] | apply framed_try; [|intros ?] ].

Lemma framed_log (message : string) : framed (log_activity message).
Proof. unfold log_activity. framing0. Qed.

Lemma framed_telegram (env : Env) (message : string) :
  framed (send_telegram_message env message).
Proof.
  unfold send_telegram_message. framing0.
  destruct (post_resp env); framing0.
Qed.

Lemma framed_ping (env : Env) (ip : string) : framed (ping_ip env ip).
Proof. unfold ping_ip. framing0. destruct (ping_resp env); framing0. Qed.

Lemma framed_sweep (env : Env) (ip : string) (ports : list Z) :
  forall i d, framed (sweep env ip ports i d).
Proof.
  induction ports as [|p tl IH]; intros i d; cbn [sweep]; framing0. apply IH.
Qed.

Ltac framing :=
  repeat first
    [ apply framed_log | apply framed_telegram | apply framed_ping
    | apply framed_sweep
    | apply framed_ret | apply framed_raise | apply framed_lift
    | apply framed_get_bot | apply framed_emit | apply framed_open
    | apply framed_if
    | apply framed_bind; [|intros ?] | apply framed_try; [|intros ?] ].

(** *** What happens when the log file can be written *)

Lemma log_activity_ok (message : string) (w : World) :
  log_writable w = true -> log_activity message w = (Ok tt, logged message w).
Proof.
  unfold log_writable, log_activity, logged, bind, emit, get_bot, open_for_writing.
  cbn. intros H. apply negb_true_iff in H. rewrite H. reflexivity.
Qed.

Lemma log_activity_fails (message : string) (w : World) :
  log_writable w = false ->
  log_activity message w
  = (Raise (OSError ("cannot open " ++ log_file (config (bot w)))),
     add_event (EvPrint message) w).
Proof.
  unfold log_writable, log_activity, logged, bind, emit, get_bot, open_for_writing.
  cbn. intros H. apply negb_false_iff in H. rewrite H. reflexivity.
Qed.

Lemma quiet_framed {A} (m : M A) : quiet m -> framed m.
Proof. intros H w. apply H. Qed.

Lemma quiet_ret {A} (a : A) : quiet (ret a).
Proof. intros w. split; [apply grows_refl | cbn; eauto]. Qed.

Lemma quiet_emit (e : Event) : quiet (emit e).
Proof. intros w. split; [apply grows_add_event | cbn; eauto]. Qed.

Lemma quiet_get_bot : quiet get_bot.
Proof. intros w. split; [apply grows_refl | cbn; eauto]. Qed.

Lemma quiet_bind {A B} (m : M A) (k : A -> M B) :
  quiet m -> (forall a, quiet (k a)) -> quiet (bind m k).
Proof.
  intros Hm Hk w. unfold bind. destruct (Hm w) as [G R].
  destruct (m w) as [[a|e] w'] eqn:E; cbn in G, R |- *.
  - destruct (Hk a w') as [G' R']. split.
    + eapply grows_trans; eauto.
    + intros H. apply R'. rewrite (grows_log_writable w); assumption.
  - split; [exact G|]. intros H. destruct (R H) as [a Ha]. discriminate.
Qed.

Lemma quiet_if {A} (b : bool) (m1 m2 : M A) :
  quiet m1 -> quiet m2 -> quiet (if b then m1 else m2).
Proof. destruct b; auto. Qed.

Lemma quiet_log (message : string) : quiet (log_activity message).
Proof.
  intros w. split; [apply framed_log|].
  intros H. rewrite log_activity_ok by exact H. cbn. eauto.
Qed.

(** A handler that is quiet makes the whole [try] quiet, whatever the
    body raises. *)
Lemma quiet_try {A} (m : M A) (h : Exn -> M A) :
  framed m -> (forall e, quiet (h e)) -> quiet (try_except m any_exception h).
Proof.
  intros Hm Hh w. unfold try_except, any_exception. specialize (Hm w).
  destruct (m w) as [[a|e] w']; cbn in Hm |- *.
  - split; [exact Hm | eauto].
  - destruct (Hh e w') as [G R]. split.
    + eapply grows_trans; eauto.
    + intros H. apply R. rewrite (grows_log_writable w); assumption.
Qed.

Lemma quiet_telegram (env : Env) (message : string) :
  quiet (send_telegram_message env message).
Proof.
  unfold send_telegram_message.
  apply quiet_bind; [apply quiet_get_bot | intros b].
  apply quiet_if.
  - apply quiet_bind; [apply quiet_log | intros _; apply quiet_ret].
  - apply quiet_try.
    + framing. destruct (post_resp env); framing.
    + intros e. apply quiet_bind; [apply quiet_log | intros _; apply quiet_ret].
Qed.


Lemma framed_bot {A} (m : M A) (w : World) : framed m -> bot (snd (m w)) = bot w.
Proof. intros H. apply (H w). Qed.

Lemma framed_threads {A} (m : M A) (w : World) :
  framed m -> threads (snd (m w)) = threads w.
Proof. intros H. apply (H w). Qed.


(** *** Computations that leave the object alone *)

Lemma keeps_bot_framed {A} (m : M A) : framed m -> keeps_bot m.
Proof. intros H w. apply (H w). Qed.

Lemma keeps_bot_spawn (th : Thread) : keeps_bot (spawn th).
Proof. intros w. reflexivity. Qed.

Lemma keeps_bot_bind {A B} (m : M A) (k : A -> M B) :
  keeps_bot m -> (forall a, keeps_bot (k a)) -> keeps_bot (bind m k).
Proof.
  intros Hm Hk w. unfold bind. specialize (Hm w).
  destruct (m w) as [[a|e] w']; cbn in Hm |- *; [|exact Hm].
  rewrite Hk. exact Hm.
Qed.

Ltac keeping :=
  repeat first
    [ apply keeps_bot_spawn
    | apply keeps_bot_framed; solve [framing]
    | apply keeps_bot_bind; [|intros ?] ].

End EngineFacts.

Module StopFacts.
Import Chars PyStr PyInt Text Validator Engine EngineFacts.

Lemma stop_traffic_inactive (env : Env) (w : World) :
  traffic_generation_active (bot w) = false ->
  stop_traffic env w = (Ok "No active traffic generation to stop", w).
Proof.
  intros H. unfold stop_traffic. rewrite bind_get_bot, H. reflexivity.
Qed.

Lemma stop_traffic_active (env : Env) (w : World) :
  traffic_generation_active (bot w) = true ->
  bot (snd (stop_traffic env w)) = set_traffic_generation_active false (bot w)
  /\ threads (snd (stop_traffic env w)) = threads w.
Proof.
  intros H. unfold stop_traffic. rewrite bind_get_bot, H, bind_modify_bot.
  match goal with |- context [snd (?m ?x)] =>
    assert (F : framed m) by framing end.
  split; [rewrite framed_bot | rewrite framed_threads]; auto.
Qed.

Lemma stop_monitoring_inactive (w : World) :
  monitoring_active (bot w) = false ->
  stop_monitoring w = (Ok "No active monitoring to stop", w).
Proof.
  intros H. unfold stop_monitoring. rewrite bind_get_bot, H. reflexivity.
Qed.

Lemma stop_monitoring_active (w : World) :
  monitoring_active (bot w) = true ->
  stop_monitoring w
  = (Ok ("Stopping monitoring of " ++ fmt_target (current_target (bot w))),
     with_bot (set_monitoring_active false (bot w)) w).
Proof.
  intros H. unfold stop_monitoring. rewrite bind_get_bot, H. reflexivity.
Qed.

Lemma traffic_loop_exit (env : Env) (t : TrafficThread) (w : World) :
  t_pc t = TLoop ->
  before_deadline env t && traffic_generation_active (bot w) = false ->
  traffic_step env t w = (Ok (with_pc TCleanup t), w).
Proof.
  intros Hpc H. unfold traffic_step. rewrite Hpc, bind_get_bot, H. reflexivity.
Qed.

Lemma monitor_loop_exit (env : Env) (m : MonitorThread) (w : World) :
  m_pc m = MLoop -> monitoring_active (bot w) = false ->
  monitor_step env m w = (Ok (with_mpc MCleanup m), w).
Proof.
  intros Hpc H. unfold monitor_step. rewrite Hpc, bind_get_bot, H. reflexivity.
Qed.

Lemma monitor_wait_break (env : Env) (m : MonitorThread) (w : World) (i n : Z) :
  m_pc m = MWaitCheck i n -> monitoring_active (bot w) = false ->
  monitor_step env m w = (Ok (with_mpc MLoop m), w).
Proof.
  intros Hpc H. unfold monitor_step. rewrite Hpc.
  destruct (i <? n); [rewrite bind_get_bot, H|]; reflexivity.
Qed.

(** C7.  [stop_traffic] and [stop_monitoring] are idempotent.  With no
    active session of the kind the call returns the fixed message and the
    world is unchanged.  With an active session it clears the flag of that
    kind and nothing else of the object or of the workers; a second call
    then returns the fixed message and changes nothing; and a worker that
    next tests the flag (at the [while] test, or at a tick of the
    monitoring wait) leaves its loop. *)
Theorem stop_is_idempotent (env : Env) (w : World) :
  (traffic_generation_active (bot w) = false ->
     stop_traffic env w = (Ok "No active traffic generation to stop", w))
  /\ (traffic_generation_active (bot w) = true ->
        let w' := snd (stop_traffic env w) in
        bot w' = set_traffic_generation_active false (bot w)
        /\ threads w' = threads w
        /\ stop_traffic env w' = (Ok "No active traffic generation to stop", w')
        /\ forall env' t, t_pc t = TLoop ->
             traffic_step env' t w' = (Ok (with_pc TCleanup t), w'))
  /\ (monitoring_active (bot w) = false ->
        stop_monitoring w = (Ok "No active monitoring to stop", w))
  /\ (monitoring_active (bot w) = true ->
        let w' := snd (stop_monitoring w) in
        bot w' = set_monitoring_active false (bot w)
        /\ threads w' = threads w
        /\ stop_monitoring w' = (Ok "No active monitoring to stop", w')
        /\ forall env' m,
             (m_pc m = MLoop ->
                monitor_step env' m w' = (Ok (with_mpc MCleanup m), w'))
             /\ (forall i n, m_pc m = MWaitCheck i n ->
                   monitor_step env' m w' = (Ok (with_mpc MLoop m), w'))).
Proof.
  split; [apply stop_traffic_inactive|].
  split.
  - intros H. destruct (stop_traffic_active env w H) as [Hb Ht]. cbv zeta.
    assert (Hoff : traffic_generation_active (bot (snd (stop_traffic env w))) = false)
      by (rewrite Hb; reflexivity).
    split; [exact Hb|]. split; [exact Ht|]. split.
    + apply stop_traffic_inactive, Hoff.
    + intros env' t Hpc. apply traffic_loop_exit; [exact Hpc|].
      rewrite Hoff. apply andb_false_r.
  - split; [apply stop_monitoring_inactive|].
    intros H. rewrite (stop_monitoring_active w H). cbn [snd].
    split; [reflexivity|]. split; [reflexivity|]. split.
    + apply stop_monitoring_inactive. reflexivity.
    + intros env' m. split.
      * intros Hpc. apply monitor_loop_exit; [exact Hpc | reflexivity].
      * intros i n Hpc. eapply monitor_wait_break; [exact Hpc | reflexivity].
Qed.

End StopFacts.

Module SharedTargetFacts.
Import Chars PyStr PyInt Text Validator Engine EngineFacts.

Lemma start_monitoring_conflict (env : Env) (ip : string) (w : World) :
  validate_ip ip = Ok true -> monitoring_active (bot w) = true ->
  start_monitoring env ip w
  = (Ok "Monitoring is already active. Stop current monitoring first.", w).
Proof.
  intros Hip H. unfold start_monitoring. rewrite Hip, bind_lift_ok.
  cbn [negb]. rewrite bind_get_bot, H. reflexivity.
Qed.

Lemma start_monitoring_accepted (env : Env) (ip : string) (w : World) :
  validate_ip ip = Ok true -> monitoring_active (bot w) = false ->
  bot (snd (start_monitoring env ip w))
  = set_current_target (Some ip) (set_monitoring_active true (bot w)).
Proof.
  intros Hip H. unfold start_monitoring. rewrite Hip, bind_lift_ok.
  cbn [negb]. rewrite bind_get_bot, H, !bind_modify_bot.
  match goal with |- bot (snd (?m ?x)) = _ =>
    assert (K : keeps_bot m) by keeping; rewrite K end.
  reflexivity.
Qed.

Lemma traffic_cleanup_bot (env : Env) (t : TrafficThread) (w : World) :
  t_pc t = TCleanup ->
  bot (snd (traffic_step env t w))
  = set_current_port None
      (set_current_target None (set_traffic_generation_active false (bot w))).
Proof.
  intros Hpc. unfold traffic_step. rewrite Hpc, !bind_modify_bot.
  match goal with |- bot (snd (?m ?x)) = _ =>
    assert (K : keeps_bot m) by keeping; rewrite K end.
  reflexivity.
Qed.

Lemma monitor_cleanup_bot (env : Env) (m : MonitorThread) (w : World) :
  m_pc m = MCleanup ->
  bot (snd (monitor_step env m w))
  = set_current_target None (set_monitoring_active false (bot w)).
Proof.
  intros Hpc. unfold monitor_step. rewrite Hpc, !bind_modify_bot.
  match goal with |- bot (snd (?m ?x)) = _ =>
    assert (K : keeps_bot m) by keeping; rewrite K end.
  reflexivity.
Qed.

(** C10.  The two kinds of session share [current_target].  Starting a
    monitoring session while a traffic session runs replaces the target
    that the status shows for the traffic session, the port staying as it
    was.  When the traffic worker ends it sets the target to [None] though
    monitoring is still active, and when the monitoring worker ends it
    sets the target to [None] though traffic generation is still active;
    the status of the session that is still running then shows [None]. *)
Theorem sessions_share_current_target :
  (forall env ip w,
      validate_ip ip = Ok true ->
      monitoring_active (bot w) = false ->
      traffic_generation_active (bot w) = true ->
      let b' := bot (snd (start_monitoring env ip w)) in
      current_target b' = Some ip
      /\ current_port b' = current_port (bot w)
      /\ traffic_generation_active b' = true
      /\ traffic_line b'
         = RED ++ "Traffic Generation:" ++ RESET ++ " True (Target: " ++ ip
           ++ ":" ++ fmt_port (current_port (bot w)) ++ ")" ++ NL)
  /\ (forall env t w,
        t_pc t = TCleanup ->
        monitoring_active (bot w) = true ->
        let b' := bot (snd (traffic_step env t w)) in
        current_target b' = None /\ monitoring_active b' = true
        /\ monitoring_line b'
           = RED ++ "Monitoring:" ++ RESET ++ " True (Target: None)" ++ NL)
  /\ (forall env m w,
        m_pc m = MCleanup ->
        traffic_generation_active (bot w) = true ->
        let b' := bot (snd (monitor_step env m w)) in
        current_target b' = None /\ traffic_generation_active b' = true
        /\ current_port b' = current_port (bot w)
        /\ traffic_line b'
           = RED ++ "Traffic Generation:" ++ RESET ++ " True (Target: None:"
             ++ fmt_port (current_port (bot w)) ++ ")" ++ NL).
Proof.
  split; [|split].
  - intros env ip w Hip Hm Ht. cbv zeta.
    rewrite (start_monitoring_accepted env ip w Hip Hm).
    unfold traffic_line. cbn [set_current_target set_monitoring_active
      current_target current_port traffic_generation_active].
    rewrite Ht. cbn [str_bool fmt_target]. auto.
  - intros env t w Hpc Hm. cbv zeta. rewrite (traffic_cleanup_bot env t w Hpc).
    unfold monitoring_line. cbn [set_current_target set_current_port
      set_traffic_generation_active current_target monitoring_active].
    rewrite Hm. auto.
  - intros env m w Hpc Ht. cbv zeta. rewrite (monitor_cleanup_bot env m w Hpc).
    unfold traffic_line. cbn [set_current_target set_monitoring_active
      current_target current_port traffic_generation_active].
    rewrite Ht. auto.
Qed.

End SharedTargetFacts.

(** ** The loops *)

Module LoopFacts.
Import Chars PyStr PyInt Text Validator Engine EngineFacts.

Lemma returns_ret {A} (P : A -> Prop) (a : A) : P a -> returns P (ret a).
Proof. intros H w a' w' E. injection E as <- _. exact H. Qed.

Lemma returns_raise {A} (P : A -> Prop) (e : Exn) : returns P (raise e).
Proof. intros w a w' E. discriminate. Qed.

Lemma returns_bind {A B} (P : B -> Prop) (m : M A) (k : A -> M B) :
  (forall a, returns P (k a)) -> returns P (bind m k).
Proof.
  intros Hk w b w' E. unfold bind in E.
  destruct (m w) as [[a|e] w1]; [|discriminate]. eapply Hk, E.
Qed.

Lemma returns_try {A} (P : A -> Prop) (m : M A) (c : Exn -> bool) (h : Exn -> M A) :
  returns P m -> (forall e, returns P (h e)) -> returns P (try_except m c h).
Proof.
  intros Hm Hh w a w' E. unfold try_except in E.
  destruct (m w) as [[a1|e] w1] eqn:Em.
  - injection E as <- _. eapply Hm, Em.
  - destruct (c e); [eapply Hh, E | discriminate].
Qed.

Lemma returns_if {A} (P : A -> Prop) (b : bool) (m1 m2 : M A) :
  returns P m1 -> returns P m2 -> returns P (if b then m1 else m2).
Proof. destruct b; auto. Qed.

Ltac returning :=
  repeat first
    [ apply returns_raise
    | apply returns_if
    | apply returns_bind; intros ?
    | apply returns_try; [|intros ?]
    | match goal with
      | |- returns _ (match ?x with _ => _ end) => destruct x
      end ].

Lemma traffic_iteration_returns (env : Env) (t : TrafficThread) :
  returns (fun t' => t' = t \/ t' = count_packet t) (traffic_iteration env t).
Proof.
  unfold traffic_iteration, rate_sleep, traffic_except.
  returning; apply returns_ret; auto.
Qed.





Lemma traffic_loop_continues (env : Env) (t : TrafficThread) (w : World) :
  t_pc t = TLoop ->
  before_deadline env t && traffic_generation_active (bot w) = true ->
  traffic_step env t w = traffic_iteration env t w.
Proof.
  intros Hpc H. unfold traffic_step. rewrite Hpc, bind_get_bot, H. reflexivity.
Qed.




Lemma quiet_run {A} (m : M A) (w : World) :
  quiet m -> log_writable w = true ->
  exists a w', m w = (Ok a, w') /\ grows w w'.
Proof.
  intros Q H. destruct (Q w) as [G R]. destruct (R H) as [a Ha].
  destruct (m w) as [r w'] eqn:E. cbn in *. subst r. eauto.
Qed.



Lemma bind_log_ok {A} (message : string) (k : unit -> M A) (w : World) :
  log_writable w = true ->
  bind (log_activity message) k w = k tt (logged message w).
Proof. intros H. unfold bind. rewrite log_activity_ok by exact H. reflexivity. Qed.

Lemma bind_telegram_ok {A} (env : Env) (message : string) (k : bool -> M A)
      (w : World) :
  log_writable w = true ->
  exists b w', grows w w'
               /\ bind (send_telegram_message env message) k w = k b w'.
Proof.
  intros H.
  destruct (quiet_run _ w (quiet_telegram env message) H) as (b & w' & E & G).
  exists b, w'. split; [exact G|]. unfold bind. rewrite E. reflexivity.
Qed.



End LoopFacts.

(** ** The port sweep and the monitoring cycle *)

Module SweepFacts.
Import Chars PyStr PyInt Text Validator Engine EngineFacts LoopFacts.





Lemma add_events_app (l1 l2 : list Event) (w : World) :
  add_events (l1 ++ l2) w = add_events l2 (add_events l1 w).
Proof. revert w. induction l1 as [|e tl IH]; intros w; cbn; auto. Qed.










End SweepFacts.

(** ** Sessions *)

Module SessionFacts.
Import Chars PyStr PyInt Text Validator Engine EngineFacts LoopFacts SweepFacts Scenarios.

(** C3, amended.  One pass of the traffic loop, with the loop test true, a
    port in 0..65535, a positive rate and a writable log file: after a
    successful unit of work the worker counts the packet and sleeps
    [1/pps] seconds; after a failed one ([connect] or [send] raising) it
    logs the error and sleeps exactly one second, without the [1/pps]
    sleep.  In every case the worker is back at the loop test and the
    world has only gained events, so the session goes on. *)
Theorem traffic_iteration_sleeps (env : Env) (t : TrafficThread) (w : World) :
  t_pc t = TLoop ->
  before_deadline env t && traffic_generation_active (bot w) = true ->
  0 <= t_port t <= 65535 ->
  0 < t_pps t ->
  log_writable w = true ->
  let failure e :=
    [EvConnect (t_ip t) (t_port t);
     EvPrint ("Error generating traffic: " ++ exn_str e);
     EvAppend (log_file (config (bot w))) ("Error generating traffic: " ++ exn_str e);
     EvSleep 1%Q] in
  match unit_resp env with
  | UnitOk =>
      traffic_step env t w
      = (Ok (count_packet t),
         add_events [EvConnect (t_ip t) (t_port t); EvSend 1024; EvClose;
                     EvSleep (1 / inject_Z (t_pps t))%Q] w)
  | ConnectRaises e =>
      traffic_step env t w = (Ok t, add_events (failure e) w)
  | SendRaises e =>
      traffic_step env t w = (Ok (count_packet t), add_events (failure e) w)
  end.
Proof.
  intros Hpc Hcond Hport Hpps Hlog. cbv zeta.
  rewrite (traffic_loop_continues env t w Hpc Hcond).
  unfold traffic_iteration.
  assert ((t_port t <? 0) || (65535 <? t_port t) = false) as -> by lia.
  rewrite bind_emit.
  assert (Hlog' : log_writable (add_event (EvConnect (t_ip t) (t_port t)) w) = true)
    by exact Hlog.
  destruct (unit_resp env) as [|e|e].
  - rewrite !bind_emit. unfold rate_sleep. cbn [count_packet t_pps].
    assert ((t_pps t =? 0) = false) as -> by lia.
    assert ((t_pps t <? 0) = false) as -> by lia.
    rewrite bind_emit. reflexivity.
  - unfold traffic_except. rewrite bind_log_ok by exact Hlog'.
    rewrite bind_emit. reflexivity.
  - unfold traffic_except. rewrite bind_log_ok by exact Hlog'.
    rewrite bind_emit. reflexivity.
Qed.




Lemma bind_spawn {A} (th : Thread) (k : unit -> M A) (w : World) :
  bind (spawn th) k w
  = k tt (add_event (EvSpawn (List.length (threads w)))
                    (with_threads (threads w ++ [th]) w)).
Proof. reflexivity. Qed.

(** [generate_traffic] with a valid address and port starts a session
    whatever the state of [traffic_generation_active]. *)
Lemma generate_traffic_starts_regardless (env : Env) (ip : string) (p : Z)
      (duration pps : option Z) (w : World) :
  validate_ip ip = Ok true -> validate_port (VInt p) = true ->
  log_writable w = true ->
  exists th w',
    generate_traffic env ip (Some p) duration pps w
    = (Ok ("Started traffic generation to " ++ ip ++ ":" ++ str_int p), w')
    /\ current_target (bot w') = Some ip
    /\ current_port (bot w') = Some p
    /\ traffic_generation_active (bot w') = true
    /\ threads w' = (threads w ++ [TrafficT th])%list
    /\ t_ip th = ip /\ t_port th = p /\ t_pc th = TStart.
Proof.
  intros Hip Hp Hlog.
  assert (Ht : truthy (Some p) = true).
  { unfold validate_port in Hp. cbn in Hp |- *. lia. }
  unfold generate_traffic. rewrite Hip, bind_lift_ok. cbn [negb].
  rewrite Ht. cbn [arg]. rewrite Hp. cbn [negb andb].
  rewrite bind_get_bot, bind_ret, !bind_modify_bot.
  rewrite bind_log_ok by exact Hlog.
  match goal with |- context [bind (send_telegram_message ?e ?msg) ?k ?x] =>
    destruct (bind_telegram_ok e msg k x Hlog) as (b & w1 & G & ->)
  end.
  rewrite bind_spawn. destruct G as (Hb & Hth & _).
  eexists. eexists. split; [reflexivity|].
  cbn [bot threads add_event with_threads]. rewrite Hb, Hth.
  repeat split.
Qed.

(** The flag is the only link between a worker and its session: a
    monitoring session started while a stopped worker has not yet tested
    the flag keeps that worker alive, next to its own. *)
Lemma restart_revives_stopped_monitor :
  let w := run restart_during_tick init_world in
  threads w = [MonitorT (mkMonitor "8.8.8.8" (MWaitSleep 1 60));
               MonitorT (mkMonitor "1.1.1.1" MLoop)]
  /\ monitoring_active (bot w) = true
  /\ live_monitor_workers w = 2%nat.
Proof. vm_compute. repeat split. Qed.

(** C1, the code at the failing input.  [generate_traffic] does not test
    [traffic_generation_active]: called while a traffic session to
    10.0.0.1:80 is running, it returns the message of a successful start,
    overwrites the target and the port of the running session, and
    launches a second worker. *)
Theorem second_generate_overwrites_running_session :
  let w1 := with_actor Main traffic_running in
  let r := generate_traffic calm "10.0.0.2" (Some 443) None None w1 in
  traffic_generation_active (bot w1) = true
  /\ current_target (bot w1) = Some "10.0.0.1"
  /\ current_port (bot w1) = Some 80
  /\ live_traffic_workers w1 = 1%nat
  /\ fst r = Ok "Started traffic generation to 10.0.0.2:443"
  /\ current_target (bot (snd r)) = Some "10.0.0.2"
  /\ current_port (bot (snd r)) = Some 443
  /\ live_traffic_workers (snd r) = 2%nat.
Proof. vm_compute. repeat split. Qed.

(** C9, the code at the failing input.  A monitoring cycle fails (ping
    cannot be started) and [stopmonitor] arrives while the worker is in
    the handler: the worker then sleeps the whole interval, 60 seconds, in
    one call, and only afterwards reaches the test of the flag. *)
Theorem error_wait_ignores_stop_request :
  let w0 := run stop_during_error_wait init_world in
  let w1 := run [(calm, Run 0%nat)] w0 in
  monitoring_active (bot w0) = false
  /\ threads w0 = [MonitorT (mkMonitor "8.8.8.8" MErrSleep)]
  /\ new_events w0 w1 = [(Worker 0, EvSleep 60%Q)]
  /\ threads w1 = [MonitorT (mkMonitor "8.8.8.8" MLoop)].
Proof. vm_compute. repeat split. Qed.

(** The same stop request during an ordinary tick is seen after one
    second. *)
Lemma tick_sees_stop_request_after_one_second :
  let w0 := run stop_during_tick init_world in
  let w1 := run [(calm, Run 0%nat); (calm, Run 0%nat)] w0 in
  monitoring_active (bot w0) = false
  /\ threads w0 = [MonitorT (mkMonitor "8.8.8.8" (MWaitSleep 0 60))]
  /\ new_events w0 w1 = [(Worker 0, EvSleep 1%Q)]
  /\ threads w1 = [MonitorT (mkMonitor "8.8.8.8" MLoop)].
Proof. vm_compute. repeat split. Qed.


(** C3, counterexample.  A refused connection in a session of 10 packets
    per second: the pass logs the error and sleeps one second; it does not
    sleep [1/10] second. *)
Lemma failed_attempt_skips_rate_sleep :
  let w' := run [(refusing, Run 0%nat)] traffic_running in
  threads traffic_running = [TrafficT worker0]
  /\ new_events traffic_running w'
     = [ (Worker 0, EvConnect "10.0.0.1" 80);
         (Worker 0, EvPrint "Error generating traffic: [Errno 111] Connection refused");
         (Worker 0, EvAppend "bot_activity.log"
                             "Error generating traffic: [Errno 111] Connection refused");
         (Worker 0, EvSleep 1%Q) ]
  /\ ~ In (Worker 0%nat, EvSleep (1 / inject_Z (t_pps worker0))%Q)
          (new_events traffic_running w').
Proof.
  vm_compute. split; [reflexivity|]. split; [reflexivity|].
  intros [H|[H|[H|[H|[]]]]]; discriminate.
Qed.





End SessionFacts.

(** ** The theorems at concrete inputs *)

Module Witnesses.
Import Chars PyStr PyInt Text Validator Engine EngineFacts LoopFacts SweepFacts Scenarios SessionFacts StopFacts SharedTargetFacts.

(** C3 (amended) at the running session of [traffic_running], with a refused and with an accepted connection. *)
Lemma traffic_iteration_sleeps_witness :
  traffic_step refusing worker0 traffic_running
  = (Ok worker0,
     add_events
       [EvConnect "10.0.0.1" 80;
        EvPrint "Error generating traffic: [Errno 111] Connection refused";
        EvAppend "bot_activity.log"
                 "Error generating traffic: [Errno 111] Connection refused";
        EvSleep 1%Q] traffic_running)
  /\ traffic_step calm worker0 traffic_running
     = (Ok (count_packet worker0),
        add_events [EvConnect "10.0.0.1" 80; EvSend 1024; EvClose;
                    EvSleep (1 / inject_Z 10)%Q] traffic_running).
Proof.
  split.
  - apply (traffic_iteration_sleeps refusing worker0 traffic_running);
      [reflexivity | reflexivity | cbn; lia | cbn; lia | reflexivity].
  - apply (traffic_iteration_sleeps calm worker0 traffic_running);
      [reflexivity | reflexivity | cbn; lia | cbn; lia | reflexivity].
Defined.



(** C7 at the initial world and at the two running sessions. *)
Lemma stop_is_idempotent_witness :
  stop_traffic calm init_world
  = (Ok "No active traffic generation to stop", init_world)
  /\ traffic_generation_active (bot (snd (stop_traffic calm traffic_running))) = false
  /\ stop_monitoring init_world = (Ok "No active monitoring to stop", init_world)
  /\ monitoring_active (bot (snd (stop_monitoring monitoring_running))) = false.
Proof.
  split; [|split; [|split]].
  - destruct (stop_is_idempotent calm init_world) as (H & _).
    apply H. reflexivity.
  - destruct (stop_is_idempotent calm traffic_running) as (_ & H & _).
    destruct (H eq_refl) as (Hb & _). rewrite Hb. reflexivity.
  - destruct (stop_is_idempotent calm init_world) as (_ & _ & H & _).
    apply H. reflexivity.
  - destruct (stop_is_idempotent calm monitoring_running) as (_ & _ & _ & H).
    destruct (H eq_refl) as (Hb & _). rewrite Hb. reflexivity.
Defined.


(** C10 at [traffic_running] and [both_running]. *)
Lemma sessions_share_current_target_witness :
  current_target (bot (snd (start_monitoring calm "8.8.8.8" traffic_running)))
  = Some "8.8.8.8"
  /\ current_target
       (bot (snd (traffic_step calm (with_pc TCleanup worker0) both_running)))
     = None
  /\ current_target
       (bot (snd (monitor_step calm (with_mpc MCleanup monitor0) both_running)))
     = None.
Proof.
  destruct sessions_share_current_target as (H1 & H2 & H3).
  split; [|split].
  - apply (H1 calm "8.8.8.8" traffic_running); reflexivity.
  - apply (H2 calm (with_pc TCleanup worker0) both_running); reflexivity.
  - apply (H3 calm (with_mpc MCleanup monitor0) both_running); reflexivity.
Defined.

End Witnesses.

(** ** The command shell, the configuration and the workers *)

Module ConversionFacts.
Import Chars PyStr PyInt Text Validator Engine Shell Runs NumeralFacts.





End ConversionFacts.

Module ConfigFacts.
Import Chars PyStr PyInt Text Validator Engine Shell Runs NumeralFacts EngineFacts ConversionFacts.







Lemma ints_of_length (l : list string) (ns : list Z) :
  ints_of l = Ok ns -> List.length ns = List.length l.
Proof.
  revert ns. induction l as [|p tl IH]; intros ns H; cbn in H.
  - injection H as <-. reflexivity.
  - destruct (int_of_str p); [|discriminate].
    destruct (ints_of tl) as [ns'|]; [|discriminate].
    injection H as <-. cbn. f_equal. apply IH. reflexivity.
Qed.

Lemma ints_of_raises (l : list string) (e : Exn) :
  ints_of l = Raise e -> is_value_error e = true.
Proof.
  induction l as [|p tl IH]; intros H; cbn in H; [discriminate|].
  destruct (int_of_str p).
  - destruct (ints_of tl); [discriminate|]. injection H as <-. apply IH. reflexivity.
  - injection H as <-. reflexivity.
Qed.


Lemma split_on_nonempty (sep : ascii) (s : string) : split_on sep s <> [].
Proof.
  destruct s as [|c tl]; cbn; [discriminate|].
  destruct (Ascii.eqb c sep); [discriminate|].
  destruct (split_on sep tl); discriminate.
Qed.

Lemma store_config_ok (cfg : Config) (shown key : string) (w : World) :
  config_writable w = true ->
  store_config cfg shown key w
  = (Ok ("Configuration updated: " ++ key ++ " = " ++ shown), stored cfg w).
Proof.
  unfold config_writable. intros H. apply negb_true_iff in H.
  unfold store_config, save_config, stored, bind, modify_bot, emit,
    open_for_writing, ret. cbn [unwritable with_bot]. rewrite H. reflexivity.
Qed.

Lemma store_config_fails (cfg : Config) (shown key : string) (w : World) :
  config_writable w = false ->
  store_config cfg shown key w
  = (Raise (OSError ("cannot open " ++ CONFIG_FILE)),
     with_bot (set_config_dict cfg (bot w)) w).
Proof.
  unfold config_writable. intros H. apply negb_false_iff in H.
  unfold store_config, save_config, stored, bind, modify_bot, emit,
    open_for_writing, ret. cbn [unwritable with_bot]. rewrite H. reflexivity.
Qed.


Lemma set_config_ports_key (value : string) (w : World) :
  set_config "default_ports" value w
  = try_except
      (bind (lift (ints_of (split_on "," value)))
            (fun l => store_config (with_default_ports l (config (bot w)))
                                   (str_int_list l) "default_ports"))
      is_value_error
      (fun _ => ret "Invalid value for default_ports. Could not convert to required type.")
      w.
Proof. reflexivity. Qed.


Lemma try_lift_ok {A B} (a : A) (k : A -> M B) (c : Exn -> bool)
      (h : Exn -> M B) (w : World) :
  try_except (bind (lift (Ok a)) k) c h w = try_except (k a) c h w.
Proof. reflexivity. Qed.

Lemma try_store_ok (cfg : Config) (shown key : string) (c : Exn -> bool)
      (h : Exn -> M string) (w : World) :
  config_writable w = true ->
  try_except (store_config cfg shown key) c h w
  = (Ok ("Configuration updated: " ++ key ++ " = " ++ shown), stored cfg w).
Proof. intros H. unfold try_except. rewrite store_config_ok by exact H. reflexivity. Qed.

Lemma try_store_fails (cfg : Config) (shown key : string)
      (h : Exn -> M string) (w : World) :
  config_writable w = false ->
  try_except (store_config cfg shown key) is_value_error h w
  = (Raise (OSError ("cannot open " ++ CONFIG_FILE)),
     with_bot (set_config_dict cfg (bot w)) w).
Proof. intros H. unfold try_except. rewrite store_config_fails by exact H. reflexivity. Qed.



(** X3. Whatever text is given, [set_config "default_ports"] leaves a port
    list that is not empty when it was not empty before (so a later
    [random.choice] on it cannot fail): every text has at least one
    comma-separated piece, each piece becomes one port or the whole text
    is rejected. *)
Theorem set_config_never_empties_port_list (value : string) (w : World) :
  default_ports (config (bot w)) <> [] ->
  default_ports (config (bot (snd (set_config "default_ports" value w)))) <> [].
Proof.
  intros H. rewrite set_config_ports_key.
  destruct (ints_of (split_on "," value)) as [l|e] eqn:E.
  - rewrite try_lift_ok.
    assert (Hl : l <> []).
    { apply ints_of_length in E. intros ->.
      destruct (split_on "," value) eqn:S; [|discriminate].
      exact (split_on_nonempty _ _ S). }
    destruct (config_writable w) eqn:Hw.
    + rewrite try_store_ok by exact Hw. exact Hl.
    + rewrite try_store_fails by exact Hw. exact Hl.
  - unfold try_except, bind, lift. rewrite (ints_of_raises _ _ E). exact H.
Qed.



End ConfigFacts.

Module StartFacts.
Import Chars PyStr PyInt Text Validator Engine Shell Runs NumeralFacts EngineFacts LoopFacts SessionFacts SharedTargetFacts.

Lemma bind_lift_raise {A B} (e : Exn) (k : A -> M B) (w : World) :
  bind (lift (Raise e)) k w = (Raise e, w).
Proof. reflexivity. Qed.

Lemma bind_log_fails {A} (message : string) (k : unit -> M A) (w : World) :
  log_writable w = false ->
  bind (log_activity message) k w
  = (Raise (OSError ("cannot open " ++ log_file (config (bot w)))),
     add_event (EvPrint message) w).
Proof. intros H. unfold bind. rewrite log_activity_fails by exact H. reflexivity. Qed.

(** X6. [generate_traffic], [start_monitoring] and [ping_ip] test the address
    first: when [validate_ip] returns [False] they answer
    [Invalid IP address: <ip>], when it raises they raise the same
    exception, and [generate_traffic] answers [Invalid port: <p>] for a
    port other than [0] outside [1..65535]; in each case nothing
    changes, whatever sessions are running. *)
Theorem invalid_target_is_rejected_without_effect (env : Env) (ip : string) (w : World) :
  (validate_ip ip = Ok false ->
   (forall port duration pps,
       generate_traffic env ip port duration pps w
       = (Ok ("Invalid IP address: " ++ ip), w))
   /\ start_monitoring env ip w = (Ok ("Invalid IP address: " ++ ip), w)
   /\ ping_ip env ip w = (Ok ("Invalid IP address: " ++ ip), w))
  /\ (forall e, validate_ip ip = Raise e ->
        (forall port duration pps,
            generate_traffic env ip port duration pps w = (Raise e, w))
        /\ start_monitoring env ip w = (Raise e, w)
        /\ ping_ip env ip w = (Raise e, w))
  /\ (forall p duration pps,
        validate_ip ip = Ok true -> p <> 0 -> validate_port (VInt p) = false ->
        generate_traffic env ip (Some p) duration pps w
        = (Ok ("Invalid port: " ++ str_int p), w)).
Proof.
  split; [|split].
  - intros H. unfold generate_traffic, start_monitoring, ping_ip.
    rewrite H, !bind_lift_ok. repeat split.
  - intros e H. unfold generate_traffic, start_monitoring, ping_ip.
    rewrite H, !bind_lift_raise. repeat split.
  - intros p duration pps H Hp Hv. unfold generate_traffic.
    rewrite H, bind_lift_ok. cbn [negb truthy arg].
    assert ((p =? 0) = false) as -> by lia. rewrite Hv. reflexivity.
Qed.

Lemma random_choice_in (env : Env) (l : list Z) :
  l <> [] -> exists p, In p l /\ random_choice env l = ret p.
Proof.
  intros H. unfold random_choice.
  destruct (nth_error l (Nat.modulo (rand env) (List.length l))) as [p|] eqn:E.
  - exists p. split; [eapply nth_error_In; eauto | reflexivity].
  - apply nth_error_None in E.
    assert (List.length l <> 0%nat) by (destruct l; cbn; congruence).
    pose proof (Nat.mod_upper_bound (rand env) (List.length l) H0). lia.
Qed.

Lemma random_choice_empty (env : Env) :
  random_choice env [] = raise (IndexError "Cannot choose from an empty sequence").
Proof. unfold random_choice. destruct (Nat.modulo _ _); reflexivity. Qed.

(** X7. A port that is missing or [0] is replaced by an element of
    [default_ports] chosen by [random.choice] ([IndexError] when the
    list is empty); a duration or rate that is missing or [0] is
    replaced by the configured value; the worker is created with these
    values and the answer names the chosen port. *)
Theorem generate_traffic_fills_defaults (env : Env) (ip : string)
        (port duration pps : option Z) (w : World) :
  validate_ip ip = Ok true -> truthy port = false ->
  (default_ports (config (bot w)) = [] ->
   generate_traffic env ip port duration pps w
   = (Raise (IndexError "Cannot choose from an empty sequence"), w))
  /\ (default_ports (config (bot w)) <> [] -> log_writable w = true ->
      exists p w',
        In p (default_ports (config (bot w)))
        /\ generate_traffic env ip port duration pps w
           = (Ok ("Started traffic generation to " ++ ip ++ ":" ++ str_int p), w')
        /\ current_port (bot w') = Some p
        /\ threads w'
           = (threads w
                ++ [TrafficT
                      (mkTraffic ip p
                         (if truthy duration then arg duration
                          else traffic_generation_duration (config (bot w)))
                         (if truthy pps then arg pps
                          else max_packets_per_second (config (bot w)))
                         0%Q 0 TStart)])%list).
Proof.
  intros Hip Hport. split.
  - intros Hempty. unfold generate_traffic.
    rewrite Hip, bind_lift_ok. cbn [negb]. rewrite Hport. cbn [andb negb].
    rewrite bind_get_bot, Hempty, random_choice_empty. reflexivity.
  - intros Hne Hlog.
    destruct (random_choice_in env _ Hne) as (p & Hin & Hch).
    unfold generate_traffic.
    rewrite Hip, bind_lift_ok. cbn [negb]. rewrite Hport. cbn [andb negb].
    rewrite bind_get_bot, Hch, bind_ret, !bind_modify_bot.
    rewrite bind_log_ok by exact Hlog.
    match goal with |- context [bind (send_telegram_message ?e ?msg) ?k ?x] =>
      destruct (bind_telegram_ok e msg k x Hlog) as (b & w1 & G & E)
    end.
    exists p. eexists. split; [exact Hin|].
    rewrite E, bind_spawn. destruct G as (Hb & Hth & _).
    split; [reflexivity|].
    cbn [bot threads add_event with_threads]. rewrite Hb, Hth.
    split; [reflexivity|].
    destruct (truthy duration), (truthy pps); reflexivity.
Qed.

(** X8. [generate_traffic] and [start_monitoring] set the session flag and
    the target before they write to the log: when the log file cannot be
    opened, the call raises, no worker thread is created, and the flag
    stays set; a later [start_monitoring] is then refused as
    [already active]. *)
Theorem start_marks_session_active_before_logging (env : Env) (ip : string) (w : World) :
  validate_ip ip = Ok true -> log_writable w = false ->
  (forall p duration pps,
      validate_port (VInt p) = true ->
      exists e w',
        generate_traffic env ip (Some p) duration pps w = (Raise e, w')
        /\ traffic_generation_active (bot w') = true
        /\ current_target (bot w') = Some ip
        /\ threads w' = threads w)
  /\ (monitoring_active (bot w) = false ->
      exists e w',
        start_monitoring env ip w = (Raise e, w')
        /\ monitoring_active (bot w') = true
        /\ threads w' = threads w
        /\ start_monitoring env ip w'
           = (Ok "Monitoring is already active. Stop current monitoring first.", w')).
Proof.
  intros Hip Hlog. split.
  - intros p duration pps Hp.
    assert (Ht : truthy (Some p) = true).
    { unfold validate_port in Hp. cbn in Hp |- *. lia. }
    unfold generate_traffic. rewrite Hip, bind_lift_ok. cbn [negb].
    rewrite Ht. cbn [arg]. rewrite Hp. cbn [negb andb].
    rewrite bind_get_bot, bind_ret, !bind_modify_bot.
    rewrite bind_log_fails by exact Hlog.
    eexists. eexists. split; [reflexivity|]. repeat split.
  - intros Hm. unfold start_monitoring at 1. rewrite Hip, bind_lift_ok. cbn [negb].
    rewrite bind_get_bot, Hm, !bind_modify_bot.
    rewrite bind_log_fails by exact Hlog.
    eexists. eexists. split; [reflexivity|]. split; [reflexivity|].
    split; [reflexivity|].
    apply start_monitoring_conflict; [exact Hip | reflexivity].
Qed.

(** X9. [start_monitoring] refuses a second session while one is active and
    changes nothing; otherwise, for a valid address and a writable log,
    it sets the flag and the target, creates one worker for that address
    and answers [Started monitoring <ip>]. *)
Theorem start_monitoring_guards_and_accepts (env : Env) (ip : string) (w : World) :
  (monitoring_active (bot w) = true -> validate_ip ip = Ok true ->
   start_monitoring env ip w
   = (Ok "Monitoring is already active. Stop current monitoring first.", w))
  /\ (monitoring_active (bot w) = false -> validate_ip ip = Ok true ->
      log_writable w = true ->
      exists w',
        start_monitoring env ip w = (Ok ("Started monitoring " ++ ip), w')
        /\ bot w' = set_current_target (Some ip) (set_monitoring_active true (bot w))
        /\ threads w' = (threads w ++ [MonitorT (mkMonitor ip MLoop)])%list).
Proof.
  split.
  - intros Hm Hip. apply start_monitoring_conflict; assumption.
  - intros Hm Hip Hlog. unfold start_monitoring.
    rewrite Hip, bind_lift_ok. cbn [negb].
    rewrite bind_get_bot, Hm, !bind_modify_bot.
    rewrite bind_log_ok by exact Hlog.
    match goal with |- context [bind (send_telegram_message ?e ?msg) ?k ?x] =>
      destruct (bind_telegram_ok e msg k x Hlog) as (b & w1 & G & E)
    end.
    eexists. rewrite E, bind_spawn. destruct G as (Hb & Hth & _).
    split; [reflexivity|].
    cbn [bot threads add_event with_threads]. rewrite Hb, Hth.
    split; reflexivity.
Qed.

End StartFacts.

Module WorkerFacts.
Import Chars PyStr PyInt Text Validator Engine Shell Runs NumeralFacts EngineFacts LoopFacts SweepFacts SessionFacts.

Lemma traffic_iteration_counts (env : Env) (t : TrafficThread) :
  0 <= t_port t <= 65535 ->
  returns (fun t' => t' = match unit_resp env with
                          | ConnectRaises _ => t
                          | _ => count_packet t
                          end)
          (traffic_iteration env t).
Proof.
  intros Hp. unfold traffic_iteration.
  assert ((t_port t <? 0) || (65535 <? t_port t) = false) as -> by lia.
  unfold rate_sleep, traffic_except.
  apply returns_bind. intros _.
  destruct (unit_resp env); returning; apply returns_ret; reflexivity.
Qed.

(** X10. One step of the traffic worker: the first step sets the counter to
    [0] and reads the clock; any later step leaves the counter or adds
    one; an iteration of the loop that stays in the loop adds one
    exactly when [connect] did not raise (a connection whose [send]
    fails is counted). *)
Theorem packet_count_counts_connections (env : Env) (t t' : TrafficThread)
        (w w' : World) :
  traffic_step env t w = (Ok t', w') ->
  (t_pc t = TStart -> packet_count t' = 0 /\ start_time t' = now env)
  /\ (t_pc t <> TStart ->
      packet_count t <= packet_count t' <= packet_count t + 1)
  /\ (t_pc t = TLoop -> t_pc t' = TLoop -> 0 <= t_port t <= 65535 ->
      packet_count t'
      = packet_count t + match unit_resp env with
                         | ConnectRaises _ => 0
                         | _ => 1
                         end).
Proof.
  intros E. split; [|split].
  - intros Hpc. unfold traffic_step in E. rewrite Hpc in E.
    injection E as <- _. split; reflexivity.
  - intros Hpc. unfold traffic_step in E.
    destruct (t_pc t) eqn:P; try congruence.
    + rewrite bind_get_bot in E.
      destruct (before_deadline env t && traffic_generation_active (bot w)).
      * apply traffic_iteration_returns in E. destruct E as [-> | ->]; cbn; lia.
      * injection E as <- _. cbn. lia.
    + assert (R : returns (fun x => x = with_pc TFinished t)
                    (bind (modify_bot (set_traffic_generation_active false))
                       (fun _ => bind (modify_bot (set_current_target None))
                       (fun _ => bind (modify_bot (set_current_port None))
                       (fun _ => bind (log_activity (traffic_stats t))
                       (fun _ => bind (send_telegram_message env
                           ("<b>Traffic Generation Complete</b>" ++ NL ++ traffic_stats t))
                       (fun _ => ret (with_pc TFinished t)))))))).
      { returning. apply returns_ret. reflexivity. }
      apply R in E. subst t'. cbn. lia.
    + injection E as <- _. lia.
    + injection E as <- _. lia.
  - intros Hpc Hpc' Hp. unfold traffic_step in E. rewrite Hpc, bind_get_bot in E.
    destruct (before_deadline env t && traffic_generation_active (bot w)).
    + apply (traffic_iteration_counts env t Hp) in E. subst t'.
      destruct (unit_resp env); cbn; lia.
    + injection E as <- _. cbn in Hpc'. discriminate.
Qed.

Lemma with_mpc_twice (pc pc' : MonitorPc) (m : MonitorThread) :
  with_mpc pc (with_mpc pc' m) = with_mpc pc m.
Proof. reflexivity. Qed.

Lemma monitor_run_step (env : Env) (rest : list Env) (m m' : MonitorThread)
      (w w' : World) :
  monitor_step env m w = (Ok m', w') ->
  monitor_run (env :: rest) m w = monitor_run rest m' w'.
Proof. intros E. cbn [monitor_run]. rewrite E. reflexivity. Qed.

Lemma wait_check_continues (env : Env) (m : MonitorThread) (w : World) (i n : Z) :
  m_pc m = MWaitCheck i n -> i < n -> monitoring_active (bot w) = true ->
  monitor_step env m w = (Ok (with_mpc (MWaitSleep i n) m), w).
Proof.
  intros Hpc Hi Hact. unfold monitor_step. rewrite Hpc.
  assert ((i <? n) = true) as -> by (apply Z.ltb_lt; exact Hi).
  rewrite bind_get_bot, Hact. reflexivity.
Qed.

Lemma wait_check_ends (env : Env) (m : MonitorThread) (w : World) (i n : Z) :
  m_pc m = MWaitCheck i n -> n <= i ->
  monitor_step env m w = (Ok (with_mpc MLoop m), w).
Proof.
  intros Hpc Hi. unfold monitor_step. rewrite Hpc.
  assert ((i <? n) = false) as -> by (apply Z.ltb_ge; exact Hi).
  reflexivity.
Qed.

Lemma wait_sleep_ticks (env : Env) (m : MonitorThread) (w : World) (i n : Z) :
  m_pc m = MWaitSleep i n ->
  monitor_step env m w
  = (Ok (with_mpc (MWaitCheck (i + 1) n) m), add_event (EvSleep 1%Q) w).
Proof. intros Hpc. unfold monitor_step. rewrite Hpc. reflexivity. Qed.

Lemma monitor_wait_from (k : nat) :
  forall (envs : list Env) (m : MonitorThread) (w : World) (i : Z),
    List.length envs = (2 * k + 1)%nat ->
    monitoring_active (bot w) = true ->
    m_pc m = MWaitCheck i (i + Z.of_nat k) ->
    monitor_run envs m w
    = (Ok (with_mpc MLoop m), add_events (repeat (EvSleep 1%Q) k) w).
Proof.
  induction k as [|k IH]; intros envs m w i Hlen Hact Hpc.
  - destruct envs as [|env envs]; [cbn in Hlen; lia|].
    destruct envs; [|cbn in Hlen; lia].
    rewrite (monitor_run_step env [] m _ w w
               (wait_check_ends env m w i _ Hpc ltac:(lia))).
    reflexivity.
  - destruct envs as [|env1 envs]; [cbn in Hlen; lia|].
    destruct envs as [|env2 envs]; [cbn in Hlen; lia|].
    rewrite (monitor_run_step env1 _ m _ w w
               (wait_check_continues env1 m w i _ Hpc ltac:(lia) Hact)).
    rewrite (monitor_run_step env2 _ _ _ _ _
               (wait_sleep_ticks env2 (with_mpc (MWaitSleep i (i + Z.of_nat (S k))) m)
                                 w i (i + Z.of_nat (S k)) eq_refl)).
    rewrite (IH envs _ (add_event (EvSleep 1%Q) w) (i + 1)).
    + reflexivity.
    + cbn in Hlen. lia.
    + exact Hact.
    + cbn [m_pc with_mpc]. f_equal. lia.
Qed.

(** X11. The wait between two monitoring cycles: an interval of [0] or less
    is no wait at all; for an interval [n >= 0], while
    [monitoring_active] stays set and nothing else runs, the worker
    sleeps [n] times one second and is back at the head of its loop
    after [2n + 1] steps. *)
Theorem monitoring_wait_lasts_the_interval (m : MonitorThread) (w : World)
        (n : Z) :
  m_pc m = MWaitCheck 0 n ->
  (n <= 0 -> forall env,
      monitor_step env m w = (Ok (with_mpc MLoop m), w))
  /\ (0 <= n -> monitoring_active (bot w) = true ->
      forall envs, List.length envs = (2 * Z.to_nat n + 1)%nat ->
        monitor_run envs m w
        = (Ok (with_mpc MLoop m),
           add_events (repeat (EvSleep 1%Q) (Z.to_nat n)) w)).
Proof.
  intros Hpc. split.
  - intros Hn env. apply (wait_check_ends env m w 0 n Hpc Hn).
  - intros Hn Hact envs Hlen.
    apply (monitor_wait_from (Z.to_nat n) envs m w 0 Hlen Hact).
    rewrite Hpc. f_equal. lia.
Qed.








(** X13. [send_telegram_message], with a writable log, never raises: without
    a token or a chat id it posts nothing and returns [False]; otherwise
    it posts once to the [sendMessage] address of the token and returns
    [True] exactly for status [200], logging the status or the exception
    in the other cases. *)
Theorem send_telegram_message_outcomes (env : Env) (message : string) (w : World) :
  log_writable w = true ->
  let c := config (bot w) in
  let posted :=
    add_event (EvPost ("https://api.telegram.org/bot" ++ telegram_token c
                       ++ "/sendMessage") (telegram_chat_id c) message) w in
  (falsy_str (telegram_token c) || falsy_str (telegram_chat_id c) = true ->
   send_telegram_message env message w
   = (Ok false, logged "Telegram not configured. Message not sent." w))
  /\ (falsy_str (telegram_token c) || falsy_str (telegram_chat_id c) = false ->
      send_telegram_message env message w
      = match post_resp env with
        | PostStatus code =>
            if code =? 200 then (Ok true, posted)
            else (Ok false,
                  logged ("Failed to send Telegram message. Status code: "
                          ++ str_int code) posted)
        | PostRaises e =>
            (Ok false,
             logged ("Error sending Telegram message: " ++ exn_str e) posted)
        end).
Proof.
  intros Hlog. cbv zeta. split; intros Hc.
  - unfold send_telegram_message. rewrite bind_get_bot, Hc.
    rewrite bind_log_ok by exact Hlog. reflexivity.
  - unfold send_telegram_message. rewrite bind_get_bot, Hc.
    unfold try_except. rewrite bind_emit.
    destruct (post_resp env) as [code|e].
    + destruct (code =? 200); [reflexivity|].
      rewrite bind_log_ok by exact Hlog. reflexivity.
    + cbn [raise any_exception]. rewrite bind_log_ok by exact Hlog. reflexivity.
Qed.

End WorkerFacts.

Module ShellFacts.
Import Chars PyStr PyInt Text Validator Engine Shell Runs NumeralFacts EngineFacts LoopFacts SweepFacts SessionFacts StopFacts.

(** *** Words of a command line *)

Lemma is_word_cons (c : ascii) (t : string) :
  is_word (String c t) = true
  <-> py_isspace c = false
      /\ string_forall (fun c => negb (py_isspace c)) t = true.
Proof.
  unfold is_word. cbn [all_space string_forall].
  destruct (py_isspace c); cbn [andb negb].
  - rewrite andb_false_r. split; [discriminate | intros [H _]; discriminate].
  - split; [intros H; split; [reflexivity | exact H] | intros [_ H]; exact H].
Qed.

Lemma word_tail (c : ascii) (t : string) :
  string_forall (fun c => negb (py_isspace c)) (String c t) = true ->
  is_word (String c t) = true.
Proof.
  cbn [string_forall]. intros H. apply andb_true_iff in H. destruct H as [Hc Ht].
  apply is_word_cons. split; [apply negb_true_iff, Hc | exact Ht].
Qed.

Lemma split_ws_word (t : string) : is_word t = true -> split_ws t = [t].
Proof.
  induction t as [|c t IH]; [discriminate|].
  intros H. apply is_word_cons in H. destruct H as [Hc Ht].
  cbn [split_ws]. rewrite Hc. destruct t as [|c' t']; [reflexivity|].
  pose proof (word_tail _ _ Ht) as Hw. apply is_word_cons in Hw.
  destruct Hw as [Hc' _]. rewrite Hc', (IH (word_tail _ _ Ht)). reflexivity.
Qed.

Lemma split_ws_word_space (t rest : string) :
  is_word t = true -> split_ws (t ++ String " " rest) = t :: split_ws rest.
Proof.
  induction t as [|c t IH]; [discriminate|].
  intros H. apply is_word_cons in H. destruct H as [Hc Ht].
  cbn [append split_ws]. rewrite Hc. destruct t as [|c' t'].
  - reflexivity.
  - pose proof (word_tail _ _ Ht) as Hw. pose proof Hw as Hw'.
    apply is_word_cons in Hw'. destruct Hw' as [Hc' _].
    cbn [append]. rewrite Hc'.
    change (String c' (t' ++ String " " rest))
      with (String c' t' ++ String " " rest).
    rewrite (IH Hw). reflexivity.
Qed.

Lemma split_ws_words (s : string) :
  Forall (fun t => is_word t = true) (split_ws s).
Proof.
  induction s as [|c tl IH]; [constructor|].
  cbn [split_ws]. destruct (py_isspace c) eqn:Hc; [exact IH|].
  assert (W1 : is_word (String c "") = true)
    by (apply is_word_cons; split; [exact Hc | reflexivity]).
  destruct tl as [|c' tl']; [repeat constructor; exact W1|].
  destruct (py_isspace c') eqn:Hc'; [constructor; [exact W1 | exact IH]|].
  destruct (split_ws (String c' tl')) as [|t ts]; [repeat constructor; exact W1|].
  inversion IH as [|? ? Ht Hts]; subst. constructor; [|exact Hts].
  destruct t as [|d t']; [discriminate|].
  apply is_word_cons in Ht. destruct Ht as [Hd Ht'].
  apply is_word_cons. split; [exact Hc|].
  cbn [string_forall]. rewrite Hd, Ht'. reflexivity.
Qed.

(** Joining words that hold no white space with single spaces and
    splitting the text again gives the words back. *)
Lemma split_ws_inverts_join (words : list string) :
  Forall (fun t => is_word t = true) words ->
  split_ws (join " " words) = words.
Proof.
  induction words as [|t ws IH]; intros H; [reflexivity|].
  inversion H as [|? ? Ht Hws]; subst.
  destruct ws as [|u ws'].
  - cbn [join]. apply split_ws_word, Ht.
  - change (join " " (t :: u :: ws'))
      with (t ++ String " " (join " " (u :: ws'))).
    rewrite split_ws_word_space by exact Ht. rewrite IH by exact Hws.
    reflexivity.
Qed.

(** *** [command_history] is only touched by [run_command] *)

Lemma kh_framed {A} (m : M A) : framed m -> keeps_history m.
Proof. intros H w. destruct (H w) as (-> & _). reflexivity. Qed.

Lemma kh_modify (f : Bot -> Bot) :
  (forall b, command_history (f b) = command_history b) ->
  keeps_history (modify_bot f).
Proof. intros H w. apply H. Qed.

Lemma kh_spawn (th : Thread) : keeps_history (spawn th).
Proof. intros w. reflexivity. Qed.

Lemma kh_bind {A B} (m : M A) (k : A -> M B) :
  keeps_history m -> (forall a, keeps_history (k a)) -> keeps_history (bind m k).
Proof.
  intros Hm Hk w. unfold bind. specialize (Hm w).
  destruct (m w) as [[a|e] w']; cbn in Hm |- *; [|exact Hm].
  rewrite Hk. exact Hm.
Qed.

Lemma kh_try {A} (m : M A) (c : Exn -> bool) (h : Exn -> M A) :
  keeps_history m -> (forall e, keeps_history (h e)) ->
  keeps_history (try_except m c h).
Proof.
  intros Hm Hh w. unfold try_except. specialize (Hm w).
  destruct (m w) as [[a|e] w']; cbn in Hm |- *; [exact Hm|].
  destruct (c e); [|exact Hm]. rewrite Hh. exact Hm.
Qed.

Lemma kh_if {A} (b : bool) (m1 m2 : M A) :
  keeps_history m1 -> keeps_history m2 -> keeps_history (if b then m1 else m2).
Proof. destruct b; auto. Qed.

Lemma kh_ret {A} (a : A) : keeps_history (ret a).
Proof. apply kh_framed, framed_ret. Qed.

Lemma kh_raise {A} (e : Exn) : keeps_history (@raise A e).
Proof. apply kh_framed, framed_raise. Qed.

Lemma kh_lift {A} (r : Res A) : keeps_history (lift r).
Proof. apply kh_framed, framed_lift. Qed.

Lemma kh_get_bot : keeps_history get_bot.
Proof. apply kh_framed, framed_get_bot. Qed.

Lemma kh_log (message : string) : keeps_history (log_activity message).
Proof. apply kh_framed, framed_log. Qed.

Lemma kh_telegram (env : Env) (message : string) :
  keeps_history (send_telegram_message env message).
Proof. apply kh_framed, framed_telegram. Qed.

Lemma kh_ping (env : Env) (ip : string) : keeps_history (ping_ip env ip).
Proof. apply kh_framed, framed_ping. Qed.

Lemma kh_save (cfg : Config) : keeps_history (save_config cfg).
Proof. apply kh_framed. unfold save_config. framing. Qed.

Ltac keeping_history :=
  repeat first
    [ apply kh_spawn | apply kh_ret | apply kh_raise | apply kh_lift
    | apply kh_get_bot | apply kh_log | apply kh_telegram | apply kh_ping
    | apply kh_save
    | apply kh_modify; intros ?; reflexivity
    | apply kh_if
    | match goal with
      | |- keeps_history (match ?x with _ => _ end) => destruct x
      end
    | apply kh_bind; [|intros ?]
    | apply kh_try; [|intros ?] ].

Lemma kh_generate_traffic (env : Env) (ip : string) (p d r : option Z) :
  keeps_history (generate_traffic env ip p d r).
Proof. unfold generate_traffic, random_choice. keeping_history. Qed.

Lemma kh_start_monitoring (env : Env) (ip : string) :
  keeps_history (start_monitoring env ip).
Proof. unfold start_monitoring. keeping_history. Qed.

Lemma kh_stop_traffic (env : Env) : keeps_history (stop_traffic env).
Proof. unfold stop_traffic. keeping_history. Qed.

Lemma kh_stop_monitoring : keeps_history stop_monitoring.
Proof. unfold stop_monitoring. keeping_history. Qed.

Lemma kh_set_config (key value : string) : keeps_history (set_config key value).
Proof. unfold set_config, store_config. keeping_history. Qed.

Lemma kh_run_parts (env : Env) (cmd : string) (args : list string) :
  keeps_history (run_parts env cmd args).
Proof.
  unfold run_parts, clear_screen.
  repeat first
    [ apply kh_generate_traffic | apply kh_start_monitoring
    | apply kh_stop_traffic | apply kh_stop_monitoring | apply kh_set_config
    | apply kh_ret | apply kh_lift | apply kh_get_bot | apply kh_ping
    | apply kh_modify; intros ?; reflexivity
    | apply kh_if
    | match goal with
      | |- keeps_history (match ?x with _ => _ end) => destruct x
      end
    | apply kh_bind; [|intros ?] ].
Qed.

Lemma try_any_total {A} (m : M A) (h : Exn -> A) (w : World) :
  exists a w', try_except m any_exception (fun e => ret (h e)) w = (Ok a, w').
Proof.
  unfold try_except, any_exception, ret.
  destruct (m w) as [[a|e] w']; eexists; eexists; reflexivity.
Qed.

Lemma run_command_total (env : Env) (command : string) (w : World) :
  exists s w',
    run_command env command w = (Ok s, w')
    /\ command_history (bot w') = (command_history (bot w) ++ [command])%list.
Proof.
  unfold run_command. rewrite bind_modify_bot.
  destruct (split_ws command) as [|word args].
  - eexists. eexists. split; reflexivity.
  - set (w1 := with_bot (push_history command (bot w)) w).
    set (h := fun e : Exn => "Error executing command: " ++ exn_str e).
    destruct (try_any_total (run_parts env (lower word) args) h w1)
      as (s & w' & E).
    pose proof (kh_try (run_parts env (lower word) args) any_exception
                       (fun e => ret (h e))
                       (kh_run_parts env (lower word) args)
                       (fun e => kh_framed _ (framed_ret _)) w1) as K.
    rewrite E in K. exists s, w'. split; [exact E | exact K].
Qed.

(** X14. [run_command] never raises, whatever the line and whatever the
    commands it runs do (every [Exception] is turned into the text
    [Error executing command: ...]), and it appends the line to
    [command_history] exactly once. *)
Theorem run_command_returns_and_records (env : Env) (command : string) (w : World) :
  exists s w',
    run_command env command w = (Ok s, w')
    /\ command_history (bot w') = (command_history (bot w) ++ [command])%list.
Proof. apply run_command_total. Qed.


(** *** The branches of [run_command] *)

Lemma run_command_eq (env : Env) (command : string) (w : World) :
  run_command env command w
  = match split_ws command with
    | [] => (Ok "", with_bot (push_history command (bot w)) w)
    | word :: args =>
        try_except (run_parts env (lower word) args) any_exception
                   (fun e => ret ("Error executing command: " ++ exn_str e))
                   (with_bot (push_history command (bot w)) w)
    end.
Proof.
  unfold run_command. rewrite bind_modify_bot.
  destruct (split_ws command); reflexivity.
Qed.


Lemma try_ret {A} (a : A) (c : Exn -> bool) (h : Exn -> M A) (w : World) :
  try_except (ret a) c h w = (Ok a, w).
Proof. reflexivity. Qed.







(** *** History and configuration display *)

Lemma last_n_suffix {A} (n : nat) (l : list A) :
  exists older, l = (older ++ last_n n l)%list
                /\ List.length (last_n n l) = Nat.min n (List.length l).
Proof.
  unfold last_n. exists (firstn (List.length l - n) l). split.
  - symmetry. apply firstn_skipn.
  - rewrite length_skipn. lia.
Qed.

Lemma nonempty_last {A} (older shown l : list A) (x : A) :
  shown <> [] -> (older ++ shown = l ++ [x])%list ->
  exists pre, shown = (pre ++ [x])%list.
Proof.
  intros Hne E. destruct (exists_last Hne) as (pre & y & ->).
  rewrite app_assoc in E. apply app_inj_tail in E. destruct E as [_ ->].
  eauto.
Qed.

(** X17. [show_history] lists a suffix of the history, of length
    [min 10 (len history)], numbered from [1]; and the [history] command
    always lists itself as the last line, after at most nine earlier
    lines. *)
Theorem show_history_lists_the_last_ten :
  (forall b, command_history b <> [] ->
     exists older shown,
       command_history b = (older ++ shown)%list
       /\ List.length shown = Nat.min 10 (List.length (command_history b))
       /\ show_history b
          = RED_BG ++ BOLD ++ " Command History " ++ RESET ++ NL
            ++ history_lines 1 shown)
  /\ (forall env command word args w,
        split_ws command = word :: args -> lower word = "history" ->
        exists earlier,
          fst (run_command env command w)
          = Ok (RED_BG ++ BOLD ++ " Command History " ++ RESET ++ NL
                ++ history_lines 1 (earlier ++ [command]))
          /\ (List.length earlier <= 9)%nat).
Proof.
  split.
  - intros b H. destruct (last_n_suffix 10 (command_history b)) as (older & E & L).
    exists older, (last_n 10 (command_history b)).
    split; [exact E|]. split; [exact L|].
    unfold show_history. destruct (command_history b); [congruence | reflexivity].
  - intros env command word args w Hs Hw.
    rewrite run_command_eq, Hs, Hw.
    change (run_parts env "history" args)
      with (bind get_bot (fun b => ret (show_history b))).
    unfold try_except. rewrite bind_get_bot. cbn [ret fst bot with_bot].
    unfold show_history.
    set (h := command_history (push_history command (bot w))).
    assert (Hh : h = (command_history (bot w) ++ [command])%list) by reflexivity.
    clearbody h.
    destruct (last_n_suffix 10 h) as (older & E & L).
    assert (Hne : last_n 10 h <> []).
    { intros Z. rewrite Z in L. rewrite Hh, length_app in L.
      cbn [List.length] in L. lia. }
    destruct (nonempty_last older (last_n 10 h) (command_history (bot w)) command Hne)
      as (earlier & Hsh); [rewrite <- E; exact Hh|].
    exists earlier. split.
    + rewrite <- Hsh. destruct h; [|reflexivity].
      destruct (command_history (bot w)); discriminate.
    + rewrite Hsh, Hh, !length_app in L. cbn [List.length] in L. lia.
Qed.

Lemma substring_all (s : string) (n : nat) :
  (String.length s <= n)%nat -> substring 0 n s = s.
Proof.
  revert n. induction s as [|c tl IH]; intros n H.
  - destruct n; reflexivity.
  - destruct n; [cbn in H; lia|]. cbn. rewrite IH; [reflexivity | cbn in H; lia].
Qed.

Lemma substring_length (s : string) (a n : nat) :
  (String.length (substring a n s) <= n)%nat.
Proof.
  revert a n. induction s as [|c tl IH]; intros a n.
  - destruct a, n; cbn; lia.
  - destruct a.
    + destruct n; cbn; [lia|]. specialize (IH 0%nat n). lia.
    + cbn. apply IH.
Qed.

Lemma length_append (s t : string) :
  String.length (s ++ t) = (String.length s + String.length t)%nat.
Proof. induction s; cbn; congruence. Qed.

(** X18. The masking of [show_config]: an empty secret stays empty, a
    secret of one to three characters is shown in full (twice, around
    the dots), and the masked text never has more than nine characters.
    [show_config] masks the token and the chat id and nothing else. *)
Theorem mask_shows_short_secrets_in_full (secret : string) :
  (secret = "" -> mask secret = "")
  /\ ((0 < String.length secret <= 3)%nat ->
      mask secret = secret ++ "..." ++ secret)
  /\ (String.length (mask secret) <= 9)%nat
  /\ (forall c,
        show_config c
        = RED_BG ++ BOLD ++ " Current Configuration " ++ RESET ++ NL
          ++ config_line "telegram_token" (mask (telegram_token c))
          ++ config_line "telegram_chat_id" (mask (telegram_chat_id c))
          ++ config_line "monitoring_interval" (str_int (monitoring_interval c))
          ++ config_line "traffic_generation_duration"
                         (str_int (traffic_generation_duration c))
          ++ config_line "max_packets_per_second"
                         (str_int (max_packets_per_second c))
          ++ config_line "default_ports" (str_int_list (default_ports c))
          ++ config_line "log_file" (log_file c)).
Proof.
  split; [|split; [|split]].
  - intros ->. reflexivity.
  - intros H. unfold mask. destruct secret as [|c tl]; [cbn in H; lia|].
    cbn [falsy_str].
    assert ((String.length (String c tl) - 3)%nat = 0%nat) as -> by lia.
    rewrite substring_all by lia. reflexivity.
  - unfold mask. destruct (falsy_str secret) eqn:E.
    + destruct secret; [cbn; lia | discriminate].
    + rewrite !length_append. cbn [String.length].
      pose proof (substring_length secret 0 3).
      pose proof (substring_length secret (String.length secret - 3) 3). lia.
  - reflexivity.
Qed.

End ShellFacts.

Module StartupFacts.
Import Chars PyStr PyInt Text Validator Engine Shell Runs Loader NumeralFacts EngineFacts LoopFacts SweepFacts SessionFacts StopFacts ShellFacts.

Lemma shell_turn_total (env : Env) (i : Input) (w : World) :
  exists w', shell_turn env i w = (Ok tt, w').
Proof.
  destruct i as [text| |]; cbn [shell_turn].
  - destruct (falsy_str (strip text)); [eexists; reflexivity|].
    destruct (run_command_total env (strip text) w) as (s & w' & E & _).
    unfold bind. rewrite E. destruct (falsy_str s); eexists; reflexivity.
  - eexists. reflexivity.
  - eexists. reflexivity.
Qed.

Lemma shell_loop_total (schedule : list (Env * Turn)) :
  forall w, exists w', shell_loop schedule w = (Ok tt, w').
Proof.
  induction schedule as [|[env turn] rest IH]; intros w; cbn [shell_loop].
  - eauto.
  - destruct (running (bot w)); [|eauto].
    destruct turn as [i|tid]; [|apply IH].
    destruct (shell_turn_total env i (with_actor Main w)) as (w' & ->).
    apply IH.
Qed.






Lemma shutdown_clears (env : Env) (w : World) :
  monitoring_active (bot (snd (shutdown env w))) = false
  /\ traffic_generation_active (bot (snd (shutdown env w))) = false
  /\ running (bot (snd (shutdown env w))) = running (bot w).
Proof.
  unfold shutdown. rewrite bind_get_bot.
  assert (S1 : exists w1,
             bind (if monitoring_active (bot w)
                   then bind stop_monitoring (fun _ => ret tt) else ret tt)
                  (fun _ =>
                     bind get_bot (fun b' =>
                     bind (if traffic_generation_active b'
                           then bind (stop_traffic env) (fun _ => ret tt)
                           else ret tt)
                          (fun _ => log_activity "Bot stopped"))) w
             = bind get_bot (fun b' =>
                     bind (if traffic_generation_active b'
                           then bind (stop_traffic env) (fun _ => ret tt)
                           else ret tt)
                          (fun _ => log_activity "Bot stopped")) w1
             /\ monitoring_active (bot w1) = false
             /\ traffic_generation_active (bot w1) = traffic_generation_active (bot w)
             /\ running (bot w1) = running (bot w)).
  { destruct (monitoring_active (bot w)) eqn:Hm.
    - unfold bind at 1 2. rewrite (stop_monitoring_active w Hm).
      eexists. split; [reflexivity|]. repeat split.
    - exists w. repeat split. exact Hm. }
  destruct S1 as (w1 & -> & Hm1 & Ht1 & Hr1).
  rewrite bind_get_bot.
  assert (L : forall w2, bot (snd (log_activity "Bot stopped" w2)) = bot w2).
  { intros w2. apply framed_bot, framed_log. }
  destruct (traffic_generation_active (bot w1)) eqn:Ht.
  - destruct (stop_traffic_active env w1 Ht) as [Hb _].
    unfold bind.
    destruct (stop_traffic env w1) as [[s|e] w2]; cbn [snd] in Hb |- *.
    + cbn [ret]. rewrite L, Hb. cbn. rewrite Hm1, Hr1. repeat split.
    + rewrite Hb. cbn. rewrite Hm1, Hr1. repeat split.
  - rewrite bind_ret. rewrite L, Hm1, Ht, Hr1. repeat split.
Qed.

Lemma start_eq (schedule : list (Env * Turn)) (env : Env) (w : World) :
  let w0 := add_event (EvPrint banner)
                      (with_bot (set_running true (bot w)) (with_actor Main w)) in
  let w1 := snd (shell_loop schedule w0) in
  start schedule env w
  = if running (bot w1) then (Ok tt, w1) else shutdown env (with_actor Main w1).
Proof.
  cbv zeta. unfold start.
  destruct (shell_loop_total schedule
              (add_event (EvPrint banner)
                 (with_bot (set_running true (bot w)) (with_actor Main w))))
    as (w1 & ->).
  reflexivity.
Qed.

(** X19. When [start] returns after the shell loop has ended ([exit] or end
    of input), neither session is marked active: the clean-up stops a
    running monitoring session and a running traffic session, also when
    stopping the traffic session raises. *)
Theorem start_stops_both_sessions_when_the_shell_ends
        (schedule : list (Env * Turn)) (env : Env) (w : World) :
  running (bot (snd (start schedule env w))) = false ->
  monitoring_active (bot (snd (start schedule env w))) = false
  /\ traffic_generation_active (bot (snd (start schedule env w))) = false.
Proof.
  rewrite start_eq. cbv zeta.
  set (w1 := snd (shell_loop schedule _)).
  destruct (running (bot w1)) eqn:R.
  - cbn [snd]. congruence.
  - intros _. destruct (shutdown_clears env (with_actor Main w1)) as (H1 & H2 & _).
    split; assumption.
Qed.


(** *** [load_config] *)

Section Merge.
Context {V : Type}.

Lemma has_key_app (k : string) (d1 d2 : list (string * V)) :
  has_key k (d1 ++ d2) = has_key k d1 || has_key k d2.
Proof. unfold has_key. apply existsb_app. Qed.

Lemma dict_get_app (k : string) (d1 d2 : list (string * V)) :
  dict_get k (d1 ++ d2)
  = if has_key k d1 then dict_get k d1 else dict_get k d2.
Proof.
  induction d1 as [|[k' v] tl IH]; [reflexivity|].
  cbn. destruct (String.eqb k k'); [reflexivity | exact IH].
Qed.

Lemma dict_get_none (k : string) (d : list (string * V)) :
  has_key k d = false -> dict_get k d = None.
Proof.
  induction d as [|[k' v] tl IH]; [reflexivity|].
  cbn. destruct (String.eqb k k'); [discriminate | exact IH].
Qed.

Lemma merge_defaults_spec (defaults : list (string * V)) :
  forall config,
    exists added,
      merge_defaults defaults config = (config ++ added)%list
      /\ (forall k, has_key k (config ++ added)
                    = has_key k config || has_key k defaults)
      /\ (forall k, has_key k config = false ->
                    dict_get k added = dict_get k defaults)
      /\ (forall k, has_key k config = true -> has_key k added = false).
Proof.
  induction defaults as [|[k0 v0] rest IH]; intros config.
  - exists []. rewrite app_nil_r. cbn. repeat split; auto.
    intros k. rewrite orb_false_r. reflexivity.
  - cbn [merge_defaults]. destruct (has_key k0 config) eqn:H0.
    + destruct (IH config) as (added & E & Hk & Hg & Hn).
      exists added. split; [exact E|]. split; [|split].
      * intros k. rewrite Hk. cbn.
        destruct (String.eqb_spec k k0) as [->|]; [|reflexivity].
        rewrite H0. reflexivity.
      * intros k Hc. rewrite (Hg k Hc). cbn.
        destruct (String.eqb_spec k k0) as [->|]; [congruence | reflexivity].
      * exact Hn.
    + destruct (IH (config ++ [(k0, v0)])%list) as (added & E & Hk & Hg & Hn).
      exists ((k0, v0) :: added). rewrite E, <- app_assoc. cbn [app].
      split; [reflexivity|]. split; [|split].
      * intros k. specialize (Hk k). rewrite <- app_assoc in Hk. cbn [app] in Hk.
        rewrite Hk, has_key_app. cbn.
        destruct (has_key k config), (String.eqb k k0); reflexivity.
      * intros k Hc. cbn. destruct (String.eqb_spec k k0) as [->|Hne];
          [reflexivity|].
        apply Hg. rewrite has_key_app, Hc. cbn.
        apply String.eqb_neq in Hne. rewrite Hne. reflexivity.
      * intros k Hc. cbn. destruct (String.eqb_spec k k0) as [->|Hne];
          [congruence|].
        cbn. apply Hn. rewrite has_key_app, Hc. reflexivity.
Qed.

Lemma merge_defaults_fixed (defaults : list (string * V)) :
  forall config,
    (forall k, has_key k defaults = true -> has_key k config = true) ->
    merge_defaults defaults config = config.
Proof.
  induction defaults as [|[k0 v0] rest IH]; intros config H; [reflexivity|].
  cbn [merge_defaults]. rewrite (H k0) by (cbn; rewrite String.eqb_refl; reflexivity).
  apply IH. intros k Hk. apply H. unfold has_key in *. cbn [existsb].
  rewrite Hk. apply orb_true_r.
Qed.

End Merge.

(** X21. [load_config] returns the defaults when the file is missing or is
    not JSON, and lets any other exception escape; for a JSON object it
    keeps the entries of the file in place (unknown keys included),
    appends the default keys that are missing, so that every default
    key is present, a key of the file keeps the value of the file, and
    any other key has its default; loading the result again changes
    nothing. *)
Theorem load_config_completes_the_file (V : Type)
        (defaults entries : list (string * V)) :
  load_config defaults Missing = Ok defaults
  /\ load_config defaults NotJson = Ok defaults
  /\ (forall e, load_config defaults (Fails e) = Raise e)
  /\ exists added,
       load_config defaults (JsonObject entries) = Ok (entries ++ added)%list
       /\ (forall k, has_key k defaults = true ->
                     has_key k (entries ++ added) = true)
       /\ (forall k, has_key k entries = true ->
                     dict_get k (entries ++ added) = dict_get k entries)
       /\ (forall k, has_key k entries = false ->
                     dict_get k (entries ++ added) = dict_get k defaults)
       /\ load_config defaults (JsonObject (entries ++ added))
          = Ok (entries ++ added)%list.
Proof.
  split; [reflexivity|]. split; [reflexivity|]. split; [reflexivity|].
  destruct (merge_defaults_spec defaults entries) as (added & E & Hk & Hg & Hn).
  exists added. cbn [load_config]. rewrite E.
  split; [reflexivity|]. split; [|split; [|split]].
  - intros k H. rewrite Hk, H. apply orb_true_r.
  - intros k H. rewrite dict_get_app, H. reflexivity.
  - intros k H. rewrite dict_get_app, H. apply Hg, H.
  - rewrite merge_defaults_fixed; [reflexivity|].
    intros k H. rewrite Hk, H. apply orb_true_r.
Qed.

End StartupFacts.

(** ** The theorems of the shell at concrete inputs *)

Module Examples.
Import Chars PyStr PyInt Text Validator Engine Scenarios Shell Loader Runs Cases.
Import ConfigFacts StartFacts WorkerFacts ShellFacts StartupFacts.



(** X3: a text of one comma is rejected and the ports are kept. *)
Lemma set_config_never_empties_port_list_witness :
  default_ports (config (bot init_world)) <> []
  /\ default_ports
       (config (bot (snd (set_config "default_ports" "," init_world)))) <> [].
Proof.
  split; [discriminate|].
  apply (set_config_never_empties_port_list "," init_world). discriminate.
Defined.



(** X6: an octet above 255 and a port above 65535, with both sessions running. *)
Lemma invalid_target_is_rejected_without_effect_witness :
  validate_ip "300.1.1.1" = Ok false
  /\ start_monitoring calm "300.1.1.1" both_running
     = (Ok "Invalid IP address: 300.1.1.1", both_running)
  /\ validate_ip "10.0.0.1" = Ok true /\ 70000 <> 0
  /\ validate_port (VInt 70000) = false
  /\ generate_traffic calm "10.0.0.1" (Some 70000) None None both_running
     = (Ok "Invalid port: 70000", both_running).
Proof.
  destruct (invalid_target_is_rejected_without_effect calm "300.1.1.1" both_running)
    as (A & _ & _).
  destruct (invalid_target_is_rejected_without_effect calm "10.0.0.1" both_running)
    as (_ & _ & B).
  split; [reflexivity|]. split; [exact (proj1 (proj2 (A eq_refl)))|].
  split; [reflexivity|]. split; [discriminate|]. split; [reflexivity|].
  apply (B 70000 None None); [reflexivity | discriminate | reflexivity].
Defined.

(** X7: port [0] is replaced like a missing port. *)
Lemma generate_traffic_fills_defaults_witness :
  validate_ip "10.0.0.1" = Ok true /\ truthy (Some 0) = false
  /\ default_ports (config (bot init_world)) <> []
  /\ log_writable init_world = true
  /\ exists p w',
       In p [80; 443; 22; 3389]
       /\ generate_traffic calm "10.0.0.1" (Some 0) None None init_world
          = (Ok ("Started traffic generation to 10.0.0.1:" ++ str_int p), w')
       /\ current_port (bot w') = Some p
       /\ threads w' = [TrafficT (mkTraffic "10.0.0.1" p 30 100 0%Q 0 TStart)].
Proof.
  split; [reflexivity|]. split; [reflexivity|]. split; [discriminate|].
  split; [reflexivity|].
  destruct (generate_traffic_fills_defaults
              calm "10.0.0.1" (Some 0) None None init_world eq_refl eq_refl)
    as (_ & H).
  apply H; [discriminate | reflexivity].
Defined.

(** X8: a log file that cannot be opened. *)
Lemma start_marks_session_active_before_logging_witness :
  validate_ip "10.0.0.1" = Ok true /\ log_writable read_only_log = false
  /\ validate_port (VInt 80) = true
  /\ exists e w',
       generate_traffic calm "10.0.0.1" (Some 80) None None read_only_log
       = (Raise e, w')
       /\ traffic_generation_active (bot w') = true
       /\ current_target (bot w') = Some "10.0.0.1"
       /\ threads w' = threads read_only_log.
Proof.
  split; [reflexivity|]. split; [reflexivity|]. split; [reflexivity|].
  destruct (start_marks_session_active_before_logging
              calm "10.0.0.1" read_only_log eq_refl eq_refl) as (H & _).
  apply (H 80 None None). reflexivity.
Defined.

(** X9: a second [monitor] command. *)
Lemma start_monitoring_guards_and_accepts_witness :
  monitoring_active (bot monitoring_running) = true
  /\ validate_ip "1.1.1.1" = Ok true
  /\ start_monitoring calm "1.1.1.1" monitoring_running
     = (Ok "Monitoring is already active. Stop current monitoring first.",
        monitoring_running).
Proof.
  split; [reflexivity|]. split; [reflexivity|].
  destruct (start_monitoring_guards_and_accepts calm "1.1.1.1" monitoring_running)
    as (H & _).
  apply H; reflexivity.
Defined.

(** X10: an accepted connection of the running worker. *)
Lemma packet_count_counts_connections_witness :
  exists t' w',
    traffic_step calm worker0 traffic_running = (Ok t', w')
    /\ t_pc worker0 = TLoop /\ t_pc t' = TLoop /\ 0 <= t_port worker0 <= 65535
    /\ packet_count t' = packet_count worker0 + 1.
Proof.
  exists (mkTraffic "10.0.0.1" 80 2 10 0%Q 2 TLoop),
         (snd (traffic_step calm worker0 traffic_running)).
  assert (E : traffic_step calm worker0 traffic_running
              = (Ok (mkTraffic "10.0.0.1" 80 2 10 0%Q 2 TLoop),
                 snd (traffic_step calm worker0 traffic_running)))
    by (vm_compute; reflexivity).
  split; [exact E|]. split; [reflexivity|]. split; [reflexivity|].
  split; [cbn; lia|].
  destruct (packet_count_counts_connections calm worker0 _ traffic_running _ E)
    as (_ & _ & H).
  apply H; [reflexivity | reflexivity | cbn; lia].
Defined.

(** X11: a wait of two seconds takes five steps. *)
Lemma monitoring_wait_lasts_the_interval_witness :
  m_pc waiting_monitor = MWaitCheck 0 2
  /\ 0 <= 2 /\ monitoring_active (bot monitoring_running) = true
  /\ List.length (repeat calm 5) = (2 * Z.to_nat 2 + 1)%nat
  /\ monitor_run (repeat calm 5) waiting_monitor monitoring_running
     = (Ok (with_mpc MLoop waiting_monitor),
        add_events [EvSleep 1%Q; EvSleep 1%Q] monitoring_running).
Proof.
  split; [reflexivity|]. split; [lia|]. split; [reflexivity|].
  split; [reflexivity|].
  destruct (monitoring_wait_lasts_the_interval
              waiting_monitor monitoring_running 2 eq_refl) as (_ & H).
  apply (H ltac:(lia) eq_refl (repeat calm 5)). reflexivity.
Defined.


(** X13: the service answers 500. *)
Lemma send_telegram_message_outcomes_witness :
  log_writable telegram_world = true
  /\ falsy_str (telegram_token (config (bot telegram_world)))
     || falsy_str (telegram_chat_id (config (bot telegram_world))) = false
  /\ send_telegram_message telegram_down "hello" telegram_world
     = (Ok false,
        logged "Failed to send Telegram message. Status code: 500"
               (add_event
                  (EvPost "https://api.telegram.org/bot123456:ABC-DEF/sendMessage"
                          "42" "hello")
                  telegram_world)).
Proof.
  split; [reflexivity|]. split; [reflexivity|].
  destruct (send_telegram_message_outcomes telegram_down "hello" telegram_world
              eq_refl) as (_ & H).
  exact (H eq_refl).
Defined.



(** X17: the [history] command lists itself. *)
Lemma show_history_lists_the_last_ten_witness :
  split_ws "history" = ["history"] /\ lower "history" = "history"
  /\ exists earlier,
       fst (run_command calm "history" monitoring_running)
       = Ok (RED_BG ++ BOLD ++ " Command History " ++ RESET ++ NL
             ++ history_lines 1 (earlier ++ ["history"]))
       /\ (List.length earlier <= 9)%nat.
Proof.
  split; [reflexivity|]. split; [reflexivity|].
  destruct show_history_lists_the_last_ten as (_ & H).
  apply (H calm "history" "history" [] monitoring_running); reflexivity.
Defined.

(** X18: a secret of two characters. *)
Lemma mask_shows_short_secrets_in_full_witness :
  (0 < String.length "ab" <= 3)%nat /\ mask "ab" = "ab...ab".
Proof.
  split; [cbn; lia|].
  destruct (mask_shows_short_secrets_in_full "ab") as (_ & H & _).
  apply H. cbn; lia.
Defined.

(** X19: [exit] with both sessions running. *)
Lemma start_stops_both_sessions_when_the_shell_ends_witness :
  running (bot (snd (start shell_session calm init_world))) = false
  /\ monitoring_active (bot (snd (start shell_session calm init_world))) = false
  /\ traffic_generation_active
       (bot (snd (start shell_session calm init_world))) = false.
Proof.
  assert (R : running (bot (snd (start shell_session calm init_world))) = false)
    by (vm_compute; reflexivity).
  split; [exact R|].
  exact (start_stops_both_sessions_when_the_shell_ends
           shell_session calm init_world R).
Defined.


(** X21: a file with one known and one unknown key. *)
Lemma load_config_completes_the_file_witness :
  has_key "max_packets_per_second" two_defaults = true
  /\ has_key "monitoring_interval" file_entries = true
  /\ has_key "max_packets_per_second" file_entries = false
  /\ exists added,
       load_config two_defaults (JsonObject file_entries)
       = Ok (file_entries ++ added)%list
       /\ has_key "max_packets_per_second" (file_entries ++ added) = true
       /\ dict_get "monitoring_interval" (file_entries ++ added)
          = dict_get "monitoring_interval" file_entries
       /\ dict_get "max_packets_per_second" (file_entries ++ added)
          = dict_get "max_packets_per_second" two_defaults.
Proof.
  split; [reflexivity|]. split; [reflexivity|]. split; [reflexivity|].
  destruct (load_config_completes_the_file Z two_defaults file_entries)
    as (_ & _ & _ & added & E & K & F & D & _).
  exists added. split; [exact E|].
  split; [apply K; reflexivity|].
  split; [apply F; reflexivity | apply D; reflexivity].
Defined.

End Examples.
